(** * SAM.gov contract-opportunities scraper: a shallow embedding of scraper.py

    The development follows the layout of the script: the pieces of the
    Python runtime it relies on (strings, dictionaries, the proleptic
    Gregorian calendar of [datetime], the pandas operations of the
    orchestrator), then [search_opportunities], [extract_records],
    [scrape] and the [__main__] block, then the properties.

    Scope of the model.  Strings are sequences of 8-bit characters.  The
    response body is typed as the endpoint documents it: [totalRecords] an
    integer, [opportunitiesData] a list of objects whose fields are strings
    or [null]; either key may be missing.  The clock is read once per run
    (the run does not cross a second).  The remote service is a function
    of the request.  Console output, requests, pauses and files written
    are recorded as events, in order.  [strftime] is that of the C library
    of Linux, which prints [%Y] without padding: four digits from the year
    1000 on, fewer before.  The frames are those of pandas 3, which infers
    the string dtype for a column that holds a string. *)

From Stdlib Require Import ZArith List String Ascii Bool Lia DecimalString.
From Stdlib Require Import Permutation.
Import ListNotations.

Local Open Scope string_scope.
Local Open Scope Z_scope.

(** ** Python strings

    A Python [str] is modelled by a Rocq [string], one [ascii] per character
    (so the model covers the code points below 256, which [str.lower] maps
    one to one; beyond them it does not keep the length of every string). *)
Module PyStr.

(** [bool(s)]: a string is true when it is not empty. *)
Definition truthy (s : string) : bool :=
  match s with EmptyString => false | String _ _ => true end.

(** [s[:n]] for a non-negative [n]: the first [n] characters, or all of [s]
    when it is shorter. *)
Fixpoint slice_to (n : nat) (s : string) : string :=
  match n, s with
  | O, _ => EmptyString
  | S _, EmptyString => EmptyString
  | S n', String c s' => String c (slice_to n' s')
  end.

(** [s.replace(a, b)] for single characters [a] and [b]. *)
Fixpoint replace_char (a b : ascii) (s : string) : string :=
  match s with
  | EmptyString => EmptyString
  | String c s' => String (if Ascii.eqb c a then b else c) (replace_char a b s')
  end.

(** [c.lower()] on one character: the letters A-Z and the upper-case letters
    of Latin-1 (0xC0-0xDE but the multiplication sign 0xD7) move up by 32. *)
Definition lower_char (c : ascii) : ascii :=
  let n := nat_of_ascii c in
  if ((65 <=? n) && (n <=? 90))%nat
     || ((192 <=? n) && (n <=? 222) && negb (n =? 215))%nat
  then ascii_of_nat (n + 32) else c.

Fixpoint lower (s : string) : string :=
  match s with
  | EmptyString => EmptyString
  | String c s' => String (lower_char c) (lower s')
  end.

(** [str(n)] for an integer. *)
Definition of_int (n : Z) : string := NilZero.string_of_int (Z.to_int n).

(** [str(x)] inside an f-string, for a value that is [None] or a string. *)
Definition of_opt (x : option string) : string :=
  match x with None => "None" | Some s => s end.

(** The digit character of [n mod 10]. *)
Definition digit (n : Z) : ascii := ascii_of_nat (48 + Z.to_nat (n mod 10)).

(** Zero-padded decimal fields, as [strftime] prints them. *)
Definition zfill2 (n : Z) : string :=
  String (digit (n / 10)) (String (digit n) EmptyString).

End PyStr.

(** ** The calendar of [datetime]

    [datetime] counts days by proleptic Gregorian ordinal, day 1 being
    0001-01-01; the two conversions below are those of CPython's
    [datetime] module. *)
Module Calendar.

Definition MAXORDINAL : Z := 3652059.   (* 9999-12-31 *)

Definition is_leap (year : Z) : bool :=
  (year mod 4 =? 0) && (negb (year mod 100 =? 0) || (year mod 400 =? 0)).

Definition days_before_year (year : Z) : Z :=
  let y := year - 1 in y * 365 + y / 4 - y / 100 + y / 400.

Definition DAYS_IN_MONTH (month : Z) : Z :=
  match month with
  | 1 => 31 | 2 => 28 | 3 => 31 | 4 => 30 | 5 => 31 | 6 => 30
  | 7 => 31 | 8 => 31 | 9 => 30 | 10 => 31 | 11 => 30 | 12 => 31
  | _ => -1
  end.

Definition DAYS_BEFORE_MONTH (month : Z) : Z :=
  match month with
  | 1 => 0 | 2 => 31 | 3 => 59 | 4 => 90 | 5 => 120 | 6 => 151
  | 7 => 181 | 8 => 212 | 9 => 243 | 10 => 273 | 11 => 304 | 12 => 334
  | _ => -1
  end.

Definition b2z (b : bool) : Z := if b then 1 else 0.


Definition days_before_month (year month : Z) : Z :=
  DAYS_BEFORE_MONTH month + b2z ((2 <? month) && is_leap year).

Definition ymd2ord (year month day : Z) : Z :=
  days_before_year year + days_before_month year month + day.

Definition DI400Y : Z := 146097.
Definition DI100Y : Z := 36524.
Definition DI4Y : Z := 1461.

Definition ord2ymd (n : Z) : Z * Z * Z :=
  let n := n - 1 in
  let n400 := n / DI400Y in
  let n := n mod DI400Y in
  let year := n400 * 400 + 1 in
  let n100 := n / DI100Y in
  let n := n mod DI100Y in
  let n4 := n / DI4Y in
  let n := n mod DI4Y in
  let n1 := n / 365 in
  let n := n mod 365 in
  let year := year + (n100 * 100 + n4 * 4 + n1) in
  if (n1 =? 4) || (n100 =? 4) then (year - 1, 12, 31)
  else
    let leapyear := (n1 =? 3) && (negb (n4 =? 24) || (n100 =? 3)) in
    let month := Z.shiftr (n + 50) 5 in
    let preceding := DAYS_BEFORE_MONTH month + b2z ((2 <? month) && leapyear) in
    if n <? preceding then
      let month := month - 1 in
      let preceding :=
        preceding - (DAYS_IN_MONTH month + b2z ((month =? 2) && leapyear)) in
      (year, month, n - preceding + 1)
    else (year, month, n - preceding + 1).

(** A [datetime] value: its day, by ordinal, and the time of day. *)
Record datetime : Type := mkDatetime
  { ordinal : Z; hour : Z; minute : Z; second : Z }.

(** [%Y]: the year in decimal, without padding. *)
Definition strftime_Y (year : Z) : string := PyStr.of_int year.

(** [dt.strftime("%m/%d/%Y")]. *)
Definition strftime_mdY (dt : datetime) : string :=
  let '(y, m, d) := ord2ymd (ordinal dt) in
  PyStr.zfill2 m ++ "/" ++ PyStr.zfill2 d ++ "/" ++ strftime_Y y.

(** [dt.strftime("%Y%m%d_%H%M%S")]. *)
Definition strftime_stamp (dt : datetime) : string :=
  let '(y, m, d) := ord2ymd (ordinal dt) in
  strftime_Y y ++ PyStr.zfill2 m ++ PyStr.zfill2 d ++ "_"
  ++ PyStr.zfill2 (hour dt) ++ PyStr.zfill2 (minute dt)
  ++ PyStr.zfill2 (second dt).

End Calendar.

(** ** Exceptions, outcomes and effects *)

(** The exceptions the script can end in.  [RequestException] stands for
    whatever [requests.get], [raise_for_status] or [resp.json] raise. *)
Inductive exn : Type :=
| ValueError (msg : string)
| TypeError (msg : string)
| OverflowError (msg : string)
| RequestException (msg : string).

(** What running a piece of code gives: a value, an exception, or, for the
    fuelled loop only, [OutOfFuel]. *)
Inductive outcome (A : Type) : Type :=
| Ret (a : A)
| Raise (e : exn)
| OutOfFuel.

Arguments Ret {A} a.
Arguments Raise {A} e.
Arguments OutOfFuel {A}.

(** [datetime - timedelta(days=n)]: both the [timedelta] and the resulting
    date must be representable. *)
Definition minus_days (dt : Calendar.datetime) (n : Z)
  : outcome Calendar.datetime :=
  if (n <? -999999999) || (999999999 <? n)
  then Raise (OverflowError "days out of range")
  else
    let o := Calendar.ordinal dt - n in
    if (1 <=? o) && (o <=? Calendar.MAXORDINAL)
    then Ret (Calendar.mkDatetime o (Calendar.hour dt) (Calendar.minute dt)
                                   (Calendar.second dt))
    else Raise (OverflowError "date value out of range").

(** ** Data model *)

(** A field of a raw opportunity object is a JSON string or [null], as the
    endpoint types them; [None] is Python's [None]. *)
Definition jstr : Type := option string.

(** A raw opportunity object: a dictionary from field names to values. *)
Definition entry : Type := list (string * jstr).

(** The decoded response body: the two keys the script reads, each absent
    ([None]) or present. *)
Record page : Type := mkPage
  { totalRecords : option Z;
    opportunitiesData : option (list entry) }.

(** The dictionary [extract_records] builds for one opportunity. *)
Record opportunity : Type := mkOpportunity
  { notice_id : jstr;
    title : jstr;
    department : jstr;
    sub_tier : jstr;
    office : jstr;
    posted_date : jstr;
    response_deadline : jstr;
    notice_type : jstr;
    set_aside : jstr;
    naics_code : jstr;
    classification_code : jstr;
    active : jstr;
    description : string;
    link : string }.

(** A result table ([DataFrame]): its rows, in order.  [pd.DataFrame()] is
    the table without rows. *)
Definition table : Type := list opportunity.

(** A value of the query-parameter dictionary. *)
Inductive pval : Type :=
| PStr (s : string)
| PInt (n : Z).

(** The arguments of one [requests.get] call. *)
Record request : Type := mkRequest
  { url : string;
    params : list (string * pval);
    timeout : Z }.

(** What the remote service does with a request. *)
Inductive reply : Type :=
| Body (p : page)
| Fails (e : exn).

(** The observable effects, in the order they happen. *)
Inductive event : Type :=
| Get (r : request)
| Sleep (seconds : Z)
| Print (text : string)
| ToCsv (path : string) (rows : table).

(** Code with effects: the events it caused and how it ended. *)
Definition M (A : Type) : Type := list event * outcome A.

Definition ret {A} (a : A) : M A := ([], Ret a).

Definition bind {A B} (m : M A) (k : A -> M B) : M B :=
  match m with
  | (l, Ret a) => let '(l', o) := k a in ((l ++ l')%list, o)
  | (l, Raise e) => (l, Raise e)
  | (l, OutOfFuel) => (l, OutOfFuel)
  end.

Definition lift {A} (o : outcome A) : M A := ([], o).
Definition emit (e : event) : M unit := ([e], Ret tt).
Definition print (text : string) : M unit := emit (Print text).
Definition sleep (seconds : Z) : M unit := emit (Sleep seconds).
Definition log {A} (m : M A) : list event := fst m.
Definition result {A} (m : M A) : outcome A := snd m.

Notation "x <- m ;; k" := (bind m (fun x => k))
  (at level 61, m at next level, right associativity).
Notation "m ;; k" := (bind m (fun _ => k))
  (at level 61, right associativity).

(** The requests among the events. *)
Fixpoint fetches (l : list event) : list request :=
  match l with
  | [] => []
  | Get r :: l' => r :: fetches l'
  | _ :: l' => fetches l'
  end.

(** The texts printed among the events. *)
Fixpoint console (l : list event) : list string :=
  match l with
  | [] => []
  | Print s :: l' => s :: console l'
  | _ :: l' => console l'
  end.

(** ** Dictionaries *)

(** The binding of [key] in a dictionary, if any. *)
Fixpoint lookup {V} (key : string) (d : list (string * V)) : option V :=
  match d with
  | [] => None
  | (k, v) :: d' => if String.eqb k key then Some v else lookup key d'
  end.

(** [opp.get(key)]: the value, [None] when the key is absent. *)
Definition get (key : string) (opp : entry) : jstr :=
  match lookup key opp with Some v => v | None => None end.

(** [opp.get(key, default)]. *)
Definition get_default (key : string) (default : jstr) (opp : entry) : jstr :=
  match lookup key opp with Some v => v | None => default end.

(** [bool(x)] for a value that is [None] or a string. *)
Definition truthy (x : jstr) : bool :=
  match x with None => false | Some s => PyStr.truthy s end.

(** [x or y]. *)
Definition or_else (x : jstr) (y : string) : string :=
  match x with
  | Some s => if PyStr.truthy s then s else y
  | None => y
  end.

(** ** The pandas operations of the orchestrator

    A table stands for the frame [pd.DataFrame] builds from its records;
    what pandas 3 makes of the [notice_id] column of such a frame, the only
    column deduplication looks at, is [DataFrame] below. *)
Module Pandas.

(** [df.empty]. *)
Definition empty (df : table) : bool :=
  match df with [] => true | _ :: _ => false end.

(** A cell of the [notice_id] column. *)
Inductive cell : Type :=
| Str (s : string)
| NaN
| PyNone.

(** Some record of the table has a string as its notice identifier. *)
Definition has_str (records : table) : bool :=
  existsb (fun r => match notice_id r with Some _ => true | None => false end)
          records.

(** The cell a value becomes in a column of the string dtype ([str_dtype])
    or in a column of objects. *)
Definition cell_of (str_dtype : bool) (v : jstr) : cell :=
  match v with
  | Some s => Str s
  | None => if str_dtype then NaN else PyNone
  end.

(** A frame with the cells of its [notice_id] column beside its rows. *)
Definition frame : Type := list (cell * opportunity).

(** [pd.DataFrame(records)]: the [notice_id] column is inferred from its
    values.  When a record has a string there, the column gets the string
    dtype and its missing values are [NaN]; when no record has one, the
    column is left as it is, a column of objects that are all [None]. *)
Definition DataFrame (records : table) : frame :=
  map (fun r => (cell_of (has_str records) (notice_id r), r)) records.

(** The rows of a frame. *)
Definition rows (df : frame) : table := map snd df.

(** [pd.concat(frames, ignore_index=True)], each frame being the
    [pd.DataFrame] of its records: the rows of the frames one after the
    other, every row with the cell its own frame gave it; pandas refuses an
    empty list of frames. *)
Definition concat (frames : list table) : outcome frame :=
  match frames with
  | [] => Raise (ValueError "No objects to concatenate")
  | _ :: _ => Ret (List.concat (map DataFrame frames))
  end.

(** Equality of two keys of the [notice_id] column: two strings are equal
    keys when they are the same string, [NaN] equals [NaN] and [None]
    equals [None], but a [NaN] and a [None] are different keys. *)
Definition key_eqb (a b : cell) : bool :=
  match a, b with
  | Str x, Str y => String.eqb x y
  | NaN, NaN => true
  | PyNone, PyNone => true
  | _, _ => false
  end.

(** Rows whose key was seen earlier are dropped ([keep="first"]). *)
Fixpoint drop_seen (seen : list cell) (df : frame) : frame :=
  match df with
  | [] => []
  | (k, r) :: df' =>
      if existsb (key_eqb k) seen
      then drop_seen seen df'
      else (k, r) :: drop_seen (k :: seen) df'
  end.

(** [df.drop_duplicates(subset="notice_id")]. *)
Definition drop_duplicates (df : frame) : frame := drop_seen [] df.

(** The columns of a table built from the extractor's dictionaries. *)
Definition columns : list string :=
  ["notice_id"; "title"; "department"; "sub_tier"; "office"; "posted_date";
   "response_deadline"; "notice_type"; "set_aside"; "naics_code";
   "classification_code"; "active"; "description"; "link"].

End Pandas.

(** ** The script *)

Definition BASE_URL : string :=
  "https://api.sam.gov/prod/opportunities/v2/search".

Definition nl : string := String (ascii_of_nat 10) EmptyString.

(** [s.endswith("/")]. *)
Fixpoint ends_with_slash (s : string) : bool :=
  match s with
  | EmptyString => false
  | String c EmptyString => Ascii.eqb c "/"
  | String _ s' => ends_with_slash s'
  end.

(** [os.path.join(dir, name)] (POSIX): an absolute [name] replaces [dir];
    otherwise a separator is put between them unless [dir] is empty or
    ends with one. *)
Definition path_join (dir name : string) : string :=
  match name with
  | String "/" _ => name
  | _ => if negb (PyStr.truthy dir) || ends_with_slash dir
         then dir ++ name else dir ++ "/" ++ name
  end.

(** [if v: params[key] = v]. *)
Definition set_if (key : string) (v : jstr) (ps : list (string * pval))
  : list (string * pval) :=
  if truthy v then (ps ++ [(key, PStr (PyStr.of_opt v))])%list else ps.

(** One iteration of the loop of [extract_records]: the dictionary built
    from one raw entry.  Slicing the description is the one step that can
    raise, when the field is [null]. *)
Definition extract_record (opp : entry) : outcome opportunity :=
  match get_default "description" (Some "") opp with
  | None => Raise (TypeError "'NoneType' object is not subscriptable")
  | Some d =>
      Ret {| notice_id := get "noticeId" opp;
             title := get "title" opp;
             department := get "department" opp;
             sub_tier := get "subTier" opp;
             office := get "office" opp;
             posted_date := get "postedDate" opp;
             response_deadline := get "responseDeadLine" opp;
             notice_type := get "type" opp;
             set_aside := get "typeOfSetAside" opp;
             naics_code := get "naicsCode" opp;
             classification_code := get "classificationCode" opp;
             active := get "active" opp;
             description := PyStr.slice_to 500 d;
             link := if truthy (get "noticeId" opp)
                     then "https://sam.gov/opp/"
                          ++ PyStr.of_opt (get "noticeId" opp) ++ "/view"
                     else "" |}
  end.

(** The [for] loop of [extract_records], [records] being the list built so
    far. *)
Fixpoint extract_loop (opps : list entry) (records : table) : outcome table :=
  match opps with
  | [] => Ret records
  | opp :: opps' =>
      match extract_record opp with
      | Ret r => extract_loop opps' (records ++ [r])%list
      | Raise e => Raise e
      | OutOfFuel => OutOfFuel
      end
  end.

Definition extract_records (data : page) : outcome table :=
  extract_loop
    (match opportunitiesData data with Some l => l | None => [] end) [].

(** One search profile of the [__main__] block: the keyword arguments of
    [scrape] (an omitted one is [None]) and the label. *)
Record search : Type := mkSearch
  { s_keyword : jstr;
    s_naics_code : jstr;
    s_notice_type : jstr;
    s_set_aside : jstr;
    s_days_back : Z;
    s_max_results : Z;
    s_label : string }.

Definition searches : list search :=
  [ mkSearch (Some "engineering services") (Some "541330") None None 30 100
             "Engineering Services (NAICS 541330)";
    mkSearch (Some "CAD modeling") None None None 60 100
             "CAD Modeling & Drafting";
    mkSearch (Some "software development") (Some "541512") None None 30 100
             "Software Development (NAICS 541512)";
    mkSearch (Some "aerospace") None None None 60 100
             "Aerospace Contracts";
    mkSearch (Some "data analysis") None None None 30 100
             "Data Analysis & Research Support";
    mkSearch (Some "engineering") None None (Some "SBA") 30 100
             "Small Business Engineering Set-Asides" ].

Definition rule : string :=
  "============================================================".

(** The progress line of the pagination loop:
    [f"  Fetched {fetched}/{wanted} opportunities..."]. *)
Definition progress_line (fetched wanted : Z) : string :=
  "  Fetched " ++ PyStr.of_int fetched ++ "/" ++ PyStr.of_int wanted
  ++ " opportunities...".

(** The line [scrape] prints before it pages:
    [f"Searching SAM.gov: keyword={keyword}, naics={naics_code}, "
     f"type={notice_type}, set_aside={set_aside}, last {days_back} days"]. *)
Definition search_banner (keyword naics_code notice_type set_aside : jstr)
    (days_back : Z) : string :=
  "Searching SAM.gov: keyword=" ++ PyStr.of_opt keyword
  ++ ", naics=" ++ PyStr.of_opt naics_code
  ++ ", type=" ++ PyStr.of_opt notice_type
  ++ ", set_aside=" ++ PyStr.of_opt set_aside
  ++ ", last " ++ PyStr.of_int days_back ++ " days".

(** [data.get("totalRecords", 0)]. *)
Definition total_of (data : page) : Z :=
  match totalRecords data with Some n => n | None => 0 end.

(** The message of the credential check. *)
Definition KEY_NOT_SET : string :=
  "SAM_API_KEY not set. Get one at https://sam.gov/content/entity-registration".

Section Scraper.

(** The environment of a run: the credential read at import time, the
    output directory, the clock (one reading serves a whole run: the model
    is of a run that does not cross a second), the remote service, and
    pandas' text rendering of a table restricted to some columns. *)
Variable API_KEY : option string.
Variable OUTPUT_DIR : string.
Variable now : Calendar.datetime.
Variable backend : request -> reply.
Variable to_string : list string -> table -> string.

(** [requests.get(url, params=..., timeout=...)], [raise_for_status] and
    [resp.json()]: one request, then the body or the failure. *)
Definition requests_get (u : string) (ps : list (string * pval)) (t : Z)
  : M page :=
  let r := mkRequest u ps t in
  emit (Get r) ;;
  lift (match backend r with Body p => Ret p | Fails e => Raise e end).

Definition search_opportunities
    (keyword naics_code posted_from posted_to set_aside notice_type : jstr)
    (limit offset : Z) : M page :=
  if negb (truthy API_KEY) then
    lift (Raise (ValueError KEY_NOT_SET))
  else
    postedFrom <-
      (if truthy posted_from then ret (PyStr.of_opt posted_from)
       else d <- lift (minus_days now 30) ;; ret (Calendar.strftime_mdY d)) ;;
    let postedTo := or_else posted_to (Calendar.strftime_mdY now) in
    let params :=
      [ ("api_key", PStr (PyStr.of_opt API_KEY));
        ("limit", PInt limit);
        ("offset", PInt offset);
        ("postedFrom", PStr postedFrom);
        ("postedTo", PStr postedTo) ] in
    let params := set_if "keyword" keyword params in
    let params := set_if "ncode" naics_code params in
    let params := set_if "typeOfSetAside" set_aside params in
    let params := set_if "ptype" notice_type params in
    requests_get BASE_URL params 30.

Definition page_size : Z := 100.

Section Scrape.

Variables keyword naics_code notice_type set_aside : jstr.
Variable max_results : Z.
Variables posted_from posted_to : string.

(** The [while] loop of [scrape], entered with the current [offset] and
    [all_records]; every iteration uses one unit of [fuel]. *)
Fixpoint scrape_loop (fuel : nat) (offset : Z) (all_records : table)
  : M table :=
  match fuel with
  | O => lift OutOfFuel
  | S fuel' =>
      if offset <? max_results then
        data <- search_opportunities keyword naics_code (Some posted_from)
                  (Some posted_to) set_aside notice_type page_size offset ;;
        let total := total_of data in
        records <- lift (extract_records data) ;;
        match records with
        | [] => ret all_records
        | _ :: _ =>
            let all_records := (all_records ++ records)%list in
            let offset := offset + page_size in
            print (progress_line (Z.of_nat (List.length all_records))
                                 (Z.min total max_results)) ;;
            if total <=? offset then ret all_records
            else sleep 1 ;; scrape_loop fuel' offset all_records
        end
      else ret all_records
  end.

End Scrape.

Definition scrape (keyword naics_code notice_type set_aside : jstr)
    (days_back max_results : Z) : M table :=
  from <- lift (minus_days now days_back) ;;
  let posted_from := Calendar.strftime_mdY from in
  let posted_to := Calendar.strftime_mdY now in
  print (search_banner keyword naics_code notice_type set_aside days_back) ;;
  all_records <- scrape_loop keyword naics_code notice_type set_aside
                   max_results posted_from posted_to
                   (S (Z.to_nat max_results)) 0 [] ;;
  match all_records with
  | [] => print "No opportunities found." ;; ret []
  | _ :: _ =>
      let df := all_records in
      let timestamp := Calendar.strftime_stamp now in
      let tag := or_else keyword (or_else naics_code "all") in
      let tag := PyStr.lower (PyStr.replace_char " " "_" tag) in
      let filename := "sam_opportunities_" ++ tag ++ "_" ++ timestamp ++ ".csv" in
      let filepath := path_join OUTPUT_DIR filename in
      emit (ToCsv filepath df) ;;
      print (nl ++ "Saved " ++ PyStr.of_int (Z.of_nat (List.length df))
             ++ " opportunities to " ++ filepath) ;;
      ret df
  end.

(** The [for s in searches] loop of the [__main__] block. *)
Fixpoint run_searches (ss : list search) (all_dfs : list table)
  : M (list table) :=
  match ss with
  | [] => ret all_dfs
  | s :: ss' =>
      print (nl ++ rule) ;;
      print (s_label s) ;;
      print rule ;;
      df <- scrape (s_keyword s) (s_naics_code s) (s_notice_type s)
              (s_set_aside s) (s_days_back s) (s_max_results s) ;;
      run_searches ss' (all_dfs ++ [df])%list
  end.

(** "Combine and deduplicate": the two statements after the loop; the
    combined frame is handed on by its rows. *)
Definition combine (all_dfs : list table) : outcome table :=
  match Pandas.concat (filter (fun df => negb (Pandas.empty df)) all_dfs) with
  | Ret combined => Ret (Pandas.rows (Pandas.drop_duplicates combined))
  | Raise e => Raise e
  | OutOfFuel => OutOfFuel
  end.

(** The [__main__] block, for a list of search profiles. *)
Definition main_block (ss : list search) : M unit :=
  all_dfs <- run_searches ss [] ;;
  combined <- lift (combine all_dfs) ;;
  if negb (Pandas.empty combined) then
    let timestamp := Calendar.strftime_stamp now in
    let filepath :=
      path_join OUTPUT_DIR ("sam_mohammed_targeted_" ++ timestamp ++ ".csv") in
    emit (ToCsv filepath combined) ;;
    print (nl ++ rule) ;;
    print ("TOTAL: " ++ PyStr.of_int (Z.of_nat (List.length combined))
           ++ " unique opportunities saved to " ++ filepath) ;;
    print rule ;;
    print (nl ++ "Top 20 results:") ;;
    let cols := ["title"; "department"; "notice_type"; "naics_code";
                 "posted_date"; "response_deadline"] in
    let available :=
      filter (fun c => existsb (String.eqb c) Pandas.columns) cols in
    print (to_string available (firstn 20 combined))
  else
    print (nl ++ "No opportunities found.").

Definition main : M unit := main_block searches.

End Scraper.

(** ** Vocabulary of the properties *)

(** The offset a request asks for. *)
Definition offset_of (r : request) : option Z :=
  match lookup "offset" (params r) with
  | Some (PInt n) => Some n
  | _ => None
  end.

(** The service answers every request for offset [o] with the page [p]. *)
Definition serves (backend : request -> reply) (o : Z) (p : page) : Prop :=
  forall r, offset_of r = Some o -> backend r = Body p.



(** The service answers every request with a page without records. *)
Definition serves_nothing (backend : request -> reply) : Prop :=
  forall r, exists p, backend r = Body p /\ extract_records p = Ret [].

(** What a profile that found nothing leaves on the console. *)
Definition quiet_profile (s : search) : list string :=
  [ nl ++ rule; s_label s; rule;
    search_banner (s_keyword s) (s_naics_code s) (s_notice_type s)
      (s_set_aside s) (s_days_back s);
    "No opportunities found." ].




(** The page extracts to at least one record. *)
Definition nonempty (p : page) : Prop :=
  exists r rs, extract_records p = Ret (r :: rs).

(** Two notice identifiers are the same: both missing, or the same
    string. *)
Definition same_id (a b : jstr) : bool :=
  match a, b with
  | None, None => true
  | Some x, Some y => String.eqb x y
  | _, _ => false
  end.

(** The rows of a table whose notice identifier is [k]; [with_id None]
    gives the rows without one. *)
Definition with_id (k : jstr) (t : table) : table :=
  filter (fun r => same_id k (notice_id r)) t.

(** The table holds a record that has a notice identifier. *)
Definition holds_id (t : table) : bool :=
  existsb (fun r => negb (same_id None (notice_id r))) t.

(** The notice identifiers of the rows that have one, in order. *)
Definition present_ids (t : table) : list string :=
  flat_map (fun r => match notice_id r with Some id => [id] | None => [] end)
           t.

(** The notice identifier a cell of the column stands for. *)
Definition cell_id (k : Pandas.cell) : jstr :=
  match k with Pandas.Str s => Some s | _ => None end.

(** The rows of a frame whose cell of the [notice_id] column is [k]. *)
Definition with_key (k : Pandas.cell) (df : Pandas.frame) : Pandas.frame :=
  filter (fun kr => Pandas.key_eqb k (fst kr)) df.

(** A character of ASCII. *)
Definition ascii_char (c : ascii) : Prop := (nat_of_ascii c < 128)%nat.

(** The request [search_opportunities] sends, the dates being settled. *)
Definition request_for (key : string)
    (keyword naics_code set_aside notice_type : jstr)
    (postedFrom postedTo : string) (limit offset : Z) : request :=
  mkRequest BASE_URL
    (set_if "ptype" notice_type
      (set_if "typeOfSetAside" set_aside
        (set_if "ncode" naics_code
          (set_if "keyword" keyword
            [ ("api_key", PStr key);
              ("limit", PInt limit);
              ("offset", PInt offset);
              ("postedFrom", PStr postedFrom);
              ("postedTo", PStr postedTo) ]))))
    30.

(** How a reply of the service ends the call that asked for it. *)
Definition reply_outcome (r : reply) : outcome page :=
  match r with Body p => Ret p | Fails e => Raise e end.

(** The files written among the events, with their rows. *)
Fixpoint files (l : list event) : list (string * table) :=
  match l with
  | [] => []
  | ToCsv path rows :: l' => (path, rows) :: files l'
  | _ :: l' => files l'
  end.

(** The pauses among the events. *)
Fixpoint pauses (l : list event) : list Z :=
  match l with
  | [] => []
  | Sleep n :: l' => n :: pauses l'
  | _ :: l' => pauses l'
  end.

(** No request follows another without a pause between them; [rested]
    tells whether a request may come next. *)
Fixpoint paced (rested : bool) (l : list event) : bool :=
  match l with
  | [] => true
  | Get _ :: l' => rested && paced false l'
  | Sleep _ :: l' => paced true l'
  | _ :: l' => paced rested l'
  end.

(** The search term a profile's file is named after. *)
Definition search_term (keyword naics_code : jstr) : string :=
  or_else keyword (or_else naics_code "all").

(** The path of the file [scrape] writes for a profile. *)
Definition csv_path (OUTPUT_DIR : string) (now : Calendar.datetime)
    (keyword naics_code : jstr) : string :=
  path_join OUTPUT_DIR
    ("sam_opportunities_"
     ++ PyStr.lower (PyStr.replace_char " " "_"
                       (search_term keyword naics_code))
     ++ "_" ++ Calendar.strftime_stamp now ++ ".csv").

(** The line [scrape] prints after it wrote its file. *)
Definition saved_line (rows : nat) (path : string) : string :=
  nl ++ "Saved " ++ PyStr.of_int (Z.of_nat rows) ++ " opportunities to "
  ++ path.

(** A character that is neither a space nor an upper-case ASCII letter. *)
Definition tag_char (c : ascii) : Prop :=
  c <> " "%char /\ ~ (65 <= nat_of_ascii c <= 90)%nat.

(** What every record of the extractor satisfies: a description of at
    most 500 characters, and a link that is empty when the record has no
    notice identifier (or an empty one) and is the detail page of its
    identifier otherwise. *)
Definition well_formed (r : opportunity) : Prop :=
  (String.length (description r) <= 500)%nat
  /\ match notice_id r with
     | Some (String c s) =>
         link r = "https://sam.gov/opp/" ++ String c s ++ "/view"
     | _ => link r = ""
     end.

(** [scrape] called with the keyword arguments of a profile [s] of the
    [__main__] block. *)
Definition scrape_profile (API_KEY : option string) (OUTPUT_DIR : string)
    (now : Calendar.datetime) (backend : request -> reply) (s : search)
  : M table :=
  scrape API_KEY OUTPUT_DIR now backend (s_keyword s) (s_naics_code s)
    (s_notice_type s) (s_set_aside s) (s_days_back s) (s_max_results s).

(** The path of the file of the combined table. *)
Definition combined_path (OUTPUT_DIR : string) (now : Calendar.datetime)
  : string :=
  path_join OUTPUT_DIR
    ("sam_mohammed_targeted_" ++ Calendar.strftime_stamp now ++ ".csv").

(** ** Sample runs

    Concrete inputs for the examples that accompany the properties. *)

(** 4 November 2026, half past nine. *)
Definition sample_now : Calendar.datetime :=
  Calendar.mkDatetime (Calendar.ymd2ord 2026 11 4) 9 30 0.

(** Thirty days earlier. *)
Definition sample_from : Calendar.datetime :=
  Calendar.mkDatetime (Calendar.ymd2ord 2026 11 4 - 30) 9 30 0.

Definition sample_entry : entry := [("noticeId", Some "N1")].

Definition sample_page (total : Z) (entries : nat) : page :=
  mkPage (Some total) (Some (repeat sample_entry entries)).

(** 250 records in all, in pages of 100, 100 and 50. *)
Definition service_250 (r : request) : reply :=
  match offset_of r with
  | Some 0 => Body (sample_page 250 100)
  | Some 100 => Body (sample_page 250 100)
  | Some 200 => Body (sample_page 250 50)
  | _ => Body (sample_page 250 0)
  end.

(** Two records, the second without a notice identifier. *)
Definition service_two (r : request) : reply :=
  Body (mkPage (Some 2) (Some [sample_entry; [("noticeId", None)]])).



(** A service without records. *)
Definition service_empty (r : request) : reply := Body (sample_page 0 0).

Definition no_rendering (cols : list string) (t : table) : string := "".

(** A service that fails every request. *)
Definition service_down (r : request) : reply :=
  Fails (RequestException "503 Server Error").

(** The table a sample run returns (empty when it raised). *)
Definition table_of (m : M table) : table :=
  match result m with Ret t => t | _ => [] end.

(** The first request of the sample runs for the keyword "engineering",
    and the next. *)
Definition sample_request (offset : Z) : request :=
  request_for "k" (Some "engineering") None None None
    "10/05/2026" "11/04/2026" 100 offset.

(** Two records that share the notice identifier ["ABC123"] and differ in
    their titles, and one without identifier. *)
Definition sample_record (id title : jstr) : opportunity :=
  mkOpportunity id title None None None None None None None None None None
    "" "".

Definition abc_first : opportunity :=
  sample_record (Some "ABC123") (Some "first").

Definition abc_second : opportunity :=
  sample_record (Some "ABC123") (Some "second").

(** ** Strings and slices *)

Lemma slice_to_substring (n : nat) (s : string) :
  PyStr.slice_to n s = substring 0 n s.
Proof.
  revert s; induction n as [|n IH]; intros [|c s]; simpl; auto.
  now rewrite IH.
Qed.

Lemma slice_to_length (n : nat) (s : string) :
  String.length (PyStr.slice_to n s) = Nat.min n (String.length s).
Proof.
  revert s; induction n as [|n IH]; intros [|c s]; simpl; auto.
Qed.

Lemma slice_to_short (n : nat) (s : string) :
  (String.length s <= n)%nat -> PyStr.slice_to n s = s.
Proof.
  revert s; induction n as [|n IH]; intros [|c s]; simpl; intros H;
    try reflexivity; try lia.
  f_equal; apply IH; lia.
Qed.

Lemma rule_length : String.length rule = 60%nat.
Proof. reflexivity. Qed.

Lemma strftime_mdY_truthy (dt : Calendar.datetime) :
  PyStr.truthy (Calendar.strftime_mdY dt) = true.
Proof.
  unfold Calendar.strftime_mdY.
  destruct (Calendar.ord2ymd (Calendar.ordinal dt)) as [[y m] d].
  reflexivity.
Qed.

Lemma or_else_truthy (s y : string) :
  PyStr.truthy s = true -> or_else (Some s) y = s.
Proof. intros H; unfold or_else; now rewrite H. Qed.

(** ** The calendar

    [ord2ymd] gives a date of the calendar, the one whose ordinal it was
    given. *)






(** Before the year 1000 it prints fewer: 6 September 931. *)
Lemma strftime_mdY_early_year :
  Calendar.strftime_mdY
    (Calendar.mkDatetime (Calendar.ymd2ord 931 9 6) 0 0 0) = "09/06/931".
Proof. vm_compute; reflexivity. Qed.


(** ** The Record Extractor *)

(** The extractor raises on a description that is [null]: the default of
    [get] only covers the absent key. *)
Lemma extract_record_null_description (opp : entry) :
  lookup "description" opp = Some None ->
  extract_record opp
  = Raise (TypeError "'NoneType' object is not subscriptable").
Proof. intros H; unfold extract_record, get_default; now rewrite H. Qed.


(** C5 (as amended): the link of a produced record is empty when the notice
    identifier is absent, [null] or the empty string, and is
    [https://sam.gov/opp/<id>/view] when it is a non-empty string [id]. *)
Theorem extract_record_link (opp : entry) (r : opportunity) :
  extract_record opp = Ret r ->
  match lookup "noticeId" opp with
  | None | Some None | Some (Some EmptyString) => link r = ""
  | Some (Some id) => link r = "https://sam.gov/opp/" ++ id ++ "/view"
  end.
Proof.
  unfold extract_record.
  destruct (get_default "description" (Some "") opp) as [d|]; [|discriminate].
  intros E; injection E as <-; simpl.
  unfold get.
  destruct (lookup "noticeId" opp) as [[[|c id]|]|]; reflexivity.
Qed.

Lemma extract_record_link_witness :
  exists r, extract_record [("noticeId", Some "N1")] = Ret r
            /\ link r = "https://sam.gov/opp/N1/view".
Proof.
  eexists; split; [reflexivity|].
  exact (extract_record_link [("noticeId", Some "N1")] _ eq_refl).
Defined.

(** C5 (as stated) fails on an identifier that is present but empty: the
    record gets an empty link, not [https://sam.gov/opp//view]. *)
Lemma extract_record_link_empty_id :
  lookup "noticeId" [("noticeId", Some "")] = Some (Some "")
  /\ exists r, extract_record [("noticeId", Some "")] = Ret r
               /\ link r = ""
               /\ link r <> "https://sam.gov/opp/" ++ "" ++ "/view".
Proof.
  split; [reflexivity|].
  eexists; split; [reflexivity|]; split; [reflexivity|discriminate].
Qed.

(** C6: a description longer than 500 characters is cut to its first 500;
    a shorter one is kept; an absent one gives the empty string; and in
    each of these cases the extractor returns a record. *)
Theorem extract_record_description (opp : entry) :
  (forall d, lookup "description" opp = Some (Some d) ->
     exists r, extract_record opp = Ret r
               /\ description r = substring 0 500 d
               /\ (500 < String.length d ->
                   String.length (description r) = 500)%nat
               /\ (String.length d <= 500 -> description r = d)%nat)
  /\ (lookup "description" opp = None ->
      exists r, extract_record opp = Ret r /\ description r = "").
Proof.
  split.
  - intros d H; unfold extract_record, get_default; rewrite H.
    eexists; split; [reflexivity|]; cbn [description].
    split; [apply slice_to_substring|]; split; intros L.
    + rewrite slice_to_length; lia.
    + now apply slice_to_short.
  - intros H; unfold extract_record, get_default; rewrite H.
    eexists; split; reflexivity.
Qed.

Lemma extract_record_description_witness :
  exists r, extract_record [("description", Some "abc")] = Ret r
            /\ description r = "abc".
Proof.
  destruct (proj1 (extract_record_description [("description", Some "abc")])
              "abc" eq_refl) as (r & E & _ & _ & S).
  exists r; split; [exact E|].
  apply S; simpl; lia.
Defined.

(** ** Deduplication *)

Lemma key_eqb_eq (a b : Pandas.cell) : Pandas.key_eqb a b = true <-> a = b.
Proof.
  destruct a as [x| |], b as [y| |]; simpl; split; intros H;
    try discriminate; try reflexivity.
  - f_equal; now apply String.eqb_eq.
  - injection H as ->; apply String.eqb_refl.
Qed.

Lemma key_eqb_neq (a b : Pandas.cell) : Pandas.key_eqb a b = false <-> a <> b.
Proof.
  rewrite <- key_eqb_eq; destruct (Pandas.key_eqb a b); split; congruence.
Qed.

(** What [drop_seen] leaves of the rows with key [k]: nothing when [k] was
    seen before, and the first of them otherwise. *)
Lemma with_key_drop_seen (k : Pandas.cell) (df : Pandas.frame) :
  forall seen,
    with_key k (Pandas.drop_seen seen df)
    = if existsb (Pandas.key_eqb k) seen then []
      else firstn 1 (with_key k df).
Proof.
  unfold with_key.
  induction df as [|[c r] df IH]; intros seen; cbn [Pandas.drop_seen filter].
  - now destruct (existsb _ seen).
  - destruct (existsb (Pandas.key_eqb c) seen) eqn:Hseen.
    + rewrite IH; cbn [fst].
      destruct (Pandas.key_eqb k c) eqn:Hk.
      * apply key_eqb_eq in Hk; subst k; now rewrite Hseen.
      * reflexivity.
    + cbn [filter fst]; rewrite IH; cbn [existsb].
      destruct (Pandas.key_eqb k c) eqn:Hk; cbn [orb firstn].
      * apply key_eqb_eq in Hk; subst k; now rewrite Hseen.
      * reflexivity.
Qed.

Lemma with_key_drop_duplicates (k : Pandas.cell) (df : Pandas.frame) :
  with_key k (Pandas.drop_duplicates df) = firstn 1 (with_key k df).
Proof. unfold Pandas.drop_duplicates; now rewrite with_key_drop_seen. Qed.

Lemma with_id_app (k : jstr) (t u : table) :
  with_id k (t ++ u)%list = (with_id k t ++ with_id k u)%list.
Proof. apply filter_app. Qed.

Lemma with_id_find (k : jstr) (t : table) (r : opportunity) :
  find (fun x => same_id k (notice_id x)) t = Some r ->
  exists rest, with_id k t = r :: rest.
Proof.
  unfold with_id; induction t as [|x t IH]; simpl; [discriminate|].
  destruct (same_id k (notice_id x)).
  - intros E; injection E as ->; now eexists.
  - exact IH.
Qed.

Lemma rows_app (df df' : Pandas.frame) :
  Pandas.rows (df ++ df')%list = (Pandas.rows df ++ Pandas.rows df')%list.
Proof. apply map_app. Qed.

Lemma rows_firstn (n : nat) (df : Pandas.frame) :
  Pandas.rows (firstn n df) = firstn n (Pandas.rows df).
Proof. symmetry; apply firstn_map. Qed.

Lemma rows_DataFrame (t : table) : Pandas.rows (Pandas.DataFrame t) = t.
Proof.
  unfold Pandas.rows, Pandas.DataFrame; rewrite map_map; cbn [snd].
  apply map_id.
Qed.

Lemma with_key_app (k : Pandas.cell) (df df' : Pandas.frame) :
  with_key k (df ++ df')%list = (with_key k df ++ with_key k df')%list.
Proof. apply filter_app. Qed.

(** The cell of every row of a frame stands for the notice identifier of
    the row, in the frames the script builds. *)
Lemma DataFrame_cells (t : table) :
  Forall (fun kr => cell_id (fst kr) = notice_id (snd kr))
         (Pandas.DataFrame t).
Proof.
  unfold Pandas.DataFrame; apply Forall_map, Forall_forall; intros r _.
  cbn [fst snd]; unfold Pandas.cell_of.
  destruct (notice_id r); [reflexivity|].
  now destruct (Pandas.has_str t).
Qed.

Lemma concat_cells (frames : list table) :
  Forall (fun kr => cell_id (fst kr) = notice_id (snd kr))
         (List.concat (map Pandas.DataFrame frames)).
Proof.
  induction frames as [|t frames IH]; cbn [map List.concat]; [constructor|].
  apply Forall_app; split; [apply DataFrame_cells|exact IH].
Qed.

Lemma drop_seen_incl (df : Pandas.frame) :
  forall seen kr, In kr (Pandas.drop_seen seen df) -> In kr df.
Proof.
  induction df as [|[c r] df IH]; intros seen kr; cbn [Pandas.drop_seen];
    [intros []|].
  destruct (existsb (Pandas.key_eqb c) seen).
  - intros H; right; now apply (IH seen).
  - intros [<-|H]; [now left|right; now apply (IH (c :: seen))].
Qed.

Lemma drop_duplicates_cells (df : Pandas.frame) :
  Forall (fun kr => cell_id (fst kr) = notice_id (snd kr)) df ->
  Forall (fun kr => cell_id (fst kr) = notice_id (snd kr))
         (Pandas.drop_duplicates df).
Proof.
  rewrite !Forall_forall; intros H kr Hin.
  apply H; now apply (drop_seen_incl df []).
Qed.

(** The rows with a given identifier are the rows whose cell is that
    string. *)
Lemma with_id_rows (id : string) (df : Pandas.frame) :
  Forall (fun kr => cell_id (fst kr) = notice_id (snd kr)) df ->
  with_id (Some id) (Pandas.rows df)
  = Pandas.rows (with_key (Pandas.Str id) df).
Proof.
  unfold with_id, with_key, Pandas.rows.
  induction 1 as [|[c r] df Hc _ IH]; [reflexivity|].
  cbn [map filter fst snd] in *; rewrite <- Hc, IH.
  destruct c as [s| |]; cbn [cell_id same_id Pandas.key_eqb];
    [destruct (String.eqb id s)|..]; reflexivity.
Qed.

(** The rows without identifier are those whose cell is [NaN] or [None],
    whatever their order. *)
Lemma with_id_none_rows (df : Pandas.frame) :
  Forall (fun kr => cell_id (fst kr) = notice_id (snd kr)) df ->
  Permutation (with_id None (Pandas.rows df))
    (Pandas.rows (with_key Pandas.NaN df)
     ++ Pandas.rows (with_key Pandas.PyNone df))%list.
Proof.
  unfold with_id, with_key, Pandas.rows.
  induction 1 as [|[c r] df Hc _ IH]; [constructor|].
  cbn [map filter fst snd] in *; rewrite <- Hc.
  destruct c as [s| |]; cbn [cell_id same_id Pandas.key_eqb map app].
  - exact IH.
  - now constructor.
  - now apply Permutation_cons_app.
Qed.

Lemma has_str_holds_id (t : table) : Pandas.has_str t = holds_id t.
Proof.
  unfold Pandas.has_str, holds_id; induction t as [|r t IH]; [reflexivity|].
  cbn [existsb]; rewrite IH; now destruct (notice_id r).
Qed.

(** The cells of a table's column by kind: its strings whatever the dtype,
    [NaN] for the records without identifier of a table that holds one,
    [None] for the records of a table that holds none. *)
Lemma with_key_DataFrame (k : Pandas.cell) (t : table) :
  Pandas.rows (with_key k (Pandas.DataFrame t))
  = match k with
    | Pandas.Str id => with_id (Some id) t
    | Pandas.NaN => if holds_id t then with_id None t else []
    | Pandas.PyNone => if holds_id t then [] else with_id None t
    end.
Proof.
  unfold Pandas.DataFrame; rewrite has_str_holds_id.
  generalize (holds_id t) as b; intros b.
  unfold with_key, with_id, Pandas.rows.
  induction t as [|r t IH]; [now destruct k, b|].
  cbn [map filter fst snd].
  destruct (Pandas.key_eqb k (Pandas.cell_of b (notice_id r))) eqn:Q;
    cbn [map snd]; rewrite IH; clear IH;
    destruct (notice_id r) as [s|], k as [id| |], b;
    cbn [Pandas.cell_of Pandas.key_eqb] in Q; try discriminate Q;
    cbn [same_id]; rewrite ?Q; reflexivity.
Qed.

Lemma with_key_concat (k : Pandas.cell) (frames : list table) :
  Pandas.rows (with_key k (List.concat (map Pandas.DataFrame frames)))
  = match k with
    | Pandas.Str id => with_id (Some id) (List.concat frames)
    | Pandas.NaN => with_id None (List.concat (filter holds_id frames))
    | Pandas.PyNone =>
        with_id None
          (List.concat (filter (fun t => negb (holds_id t)) frames))
    end.
Proof.
  induction frames as [|t frames IH]; [now destruct k|].
  cbn [map List.concat]; rewrite with_key_app, rows_app, IH.
  rewrite with_key_DataFrame; destruct k as [id| |].
  - cbn [List.concat]; now rewrite with_id_app.
  - cbn [filter]; destruct (holds_id t); cbn [negb List.concat];
      now rewrite ?with_id_app.
  - cbn [filter]; destruct (holds_id t); cbn [negb List.concat];
      now rewrite ?with_id_app.
Qed.

(** Empty tables contribute nothing to the concatenation. *)
Lemma concat_nonempty (frames : list table) :
  List.concat
    (map Pandas.DataFrame (filter (fun df => negb (Pandas.empty df)) frames))
  = List.concat (map Pandas.DataFrame frames).
Proof.
  induction frames as [|[|r t] frames IH]; simpl; auto.
  now rewrite IH.
Qed.

Lemma combine_ret (all_dfs : list table) (combined : table) :
  combine all_dfs = Ret combined ->
  combined
  = Pandas.rows (Pandas.drop_duplicates
                   (List.concat (map Pandas.DataFrame all_dfs))).
Proof.
  unfold combine, Pandas.concat; rewrite <- (concat_nonempty all_dfs).
  destruct (filter _ all_dfs); [discriminate|].
  now intros E; injection E as <-.
Qed.

Lemma combine_some (all_dfs : list table) :
  (exists df, In df all_dfs /\ df <> []) ->
  combine all_dfs
  = Ret (Pandas.rows (Pandas.drop_duplicates
                        (List.concat (map Pandas.DataFrame all_dfs)))).
Proof.
  intros (df & Hin & Hne).
  unfold combine, Pandas.concat; rewrite <- (concat_nonempty all_dfs).
  destruct (filter _ all_dfs) as [|x l] eqn:E; [|reflexivity].
  exfalso.
  assert (Hf : In df (filter (fun df => negb (Pandas.empty df)) all_dfs)).
  { apply filter_In; split; [exact Hin|]. now destruct df. }
  now rewrite E in Hf.
Qed.

(** What the combined table keeps of the rows of a kind: the first. *)
Lemma combine_keeps_first (all_dfs : list table) (combined : table) :
  combine all_dfs = Ret combined ->
  exists df,
    combined = Pandas.rows df
    /\ Forall (fun kr => cell_id (fst kr) = notice_id (snd kr)) df
    /\ forall k,
         Pandas.rows (with_key k df)
         = firstn 1 (Pandas.rows
                       (with_key k
                          (List.concat (map Pandas.DataFrame all_dfs)))).
Proof.
  intros E; apply combine_ret in E.
  exists (Pandas.drop_duplicates (List.concat (map Pandas.DataFrame all_dfs))).
  split; [exact E|split].
  - apply drop_duplicates_cells, concat_cells.
  - intros k; now rewrite with_key_drop_duplicates, rows_firstn.
Qed.

(** C4: when the tables of two profiles both hold a record with notice
    identifier [id] (["ABC123"], say), [r1] being the first such record of
    the profile that ran first, the combined table holds exactly one
    record with that identifier, and it is [r1]. *)
Theorem combine_first_profile_wins
    (t1 t2 : table) (id : string) (r1 r2 : opportunity) :
  find (fun x => same_id (Some id) (notice_id x)) t1 = Some r1 ->
  In r2 t2 -> notice_id r2 = Some id ->
  exists combined,
    combine [t1; t2] = Ret combined /\ with_id (Some id) combined = [r1].
Proof.
  intros Hfind Hin _.
  assert (E : combine [t1; t2]
              = Ret (Pandas.rows
                       (Pandas.drop_duplicates
                          (List.concat (map Pandas.DataFrame [t1; t2]))))).
  { apply combine_some; exists t2; split; [now right; left|].
    intros ->; contradiction. }
  eexists; split; [exact E|].
  destruct (combine_keeps_first _ _ E) as (df & -> & C & K).
  rewrite (with_id_rows id df C), K, with_key_concat.
  cbn [List.concat]; rewrite with_id_app.
  destruct (with_id_find _ _ _ Hfind) as (rest & ->); reflexivity.
Qed.

(** C10 (as amended): deduplication collapses the records without notice
    identifier by the kind of table they come from.  Of those that come
    from tables holding some identifier (their missing cells are [NaN])
    the combined table keeps the first only, and likewise of those that
    come from tables holding no identifier at all (their cells are
    [None]); a [NaN] and a [None] being different keys, the combined table
    holds at most two records without identifier, however many profiles
    contributed such records. *)
Theorem combine_collapses_missing_ids
    (all_dfs : list table) (combined : table) :
  combine all_dfs = Ret combined ->
  Permutation (with_id None combined)
    (firstn 1 (with_id None (List.concat (filter holds_id all_dfs)))
     ++ firstn 1 (with_id None
                    (List.concat
                       (filter (fun t => negb (holds_id t)) all_dfs))))%list
  /\ (List.length (with_id None combined) <= 2)%nat.
Proof.
  intros E.
  destruct (combine_keeps_first _ _ E) as (df & -> & C & K).
  assert (P := with_id_none_rows df C).
  rewrite !K, !with_key_concat in P.
  split; [exact P|].
  rewrite (Permutation_length P), length_app.
  pose proof (firstn_le_length 1
                (with_id None (List.concat (filter holds_id all_dfs)))).
  pose proof (firstn_le_length 1
                (with_id None
                   (List.concat
                      (filter (fun t => negb (holds_id t)) all_dfs)))).
  lia.
Qed.

(** ** The Page Fetcher *)

Section Fetcher.

Variable API_KEY : option string.
Variable now : Calendar.datetime.
Variable backend : request -> reply.

(** C7: without a credential ([None], or the empty string, which the check
    treats alike) every call of [search_opportunities] ends in the
    configuration error, and no request was sent before it: the call
    caused no event at all. *)
Theorem search_opportunities_without_key
    (keyword naics_code posted_from posted_to set_aside notice_type : jstr)
    (limit offset : Z) :
  truthy API_KEY = false ->
  search_opportunities API_KEY now backend keyword naics_code posted_from
    posted_to set_aside notice_type limit offset
  = ([], Raise (ValueError KEY_NOT_SET))
  /\ fetches (log (search_opportunities API_KEY now backend keyword
                     naics_code posted_from posted_to set_aside notice_type
                     limit offset)) = [].
Proof.
  intros H; unfold search_opportunities; rewrite H; simpl; auto.
Qed.

(** With a credential and both dates given, the call sends one request,
    the one of [request_for], and ends as the service replies. *)
Lemma search_opportunities_with_key
    (key : string) (keyword naics_code set_aside notice_type : jstr)
    (pf pt : string) (limit offset : Z) :
  API_KEY = Some key -> PyStr.truthy key = true ->
  PyStr.truthy pf = true -> PyStr.truthy pt = true ->
  search_opportunities API_KEY now backend keyword naics_code (Some pf)
    (Some pt) set_aside notice_type limit offset
  = let r := request_for key keyword naics_code set_aside notice_type
               pf pt limit offset in
    ([Get r], reply_outcome (backend r)).
Proof.
  intros -> Hk Hf Ht; unfold search_opportunities, requests_get.
  cbn [truthy PyStr.of_opt]; rewrite Hk, Hf; cbn [negb].
  rewrite (or_else_truthy _ _ Ht).
  unfold request_for, reply_outcome; cbn.
  now destruct (backend _).
Qed.

End Fetcher.

Lemma lookup_app {V} (key : string) (d d' : list (string * V)) (v : V) :
  lookup key d = Some v -> lookup key (d ++ d')%list = Some v.
Proof.
  induction d as [|[k x] d IH]; simpl; [discriminate|].
  destruct (String.eqb k key); auto.
Qed.

Lemma lookup_set_if (key k : string) (v : jstr) (ps : list (string * pval))
    (x : pval) :
  lookup key ps = Some x -> lookup key (set_if k v ps) = Some x.
Proof.
  intros H; unfold set_if; destruct (truthy v); [|exact H].
  now apply lookup_app.
Qed.

Lemma request_for_params (key : string)
    (keyword naics_code set_aside notice_type : jstr)
    (pf pt : string) (limit offset : Z) :
  let r := request_for key keyword naics_code set_aside notice_type pf pt
             limit offset in
  offset_of r = Some offset
  /\ lookup "postedFrom" (params r) = Some (PStr pf)
  /\ lookup "postedTo" (params r) = Some (PStr pt)
  /\ lookup "limit" (params r) = Some (PInt limit).
Proof.
  assert (K : forall name x,
             lookup name [ ("api_key", PStr key); ("limit", PInt limit);
                           ("offset", PInt offset); ("postedFrom", PStr pf);
                           ("postedTo", PStr pt) ] = Some x ->
             lookup name
               (params (request_for key keyword naics_code set_aside
                          notice_type pf pt limit offset)) = Some x).
  { intros name x H; unfold request_for; cbn [params].
    now repeat apply lookup_set_if. }
  cbv zeta; unfold offset_of.
  rewrite (K "offset" (PInt offset) eq_refl).
  repeat split; apply K; reflexivity.
Qed.

(** ** The Pagination Driver *)

Lemma extract_loop_in_fuel (opps : list entry) :
  forall records, extract_loop opps records <> OutOfFuel.
Proof.
  induction opps as [|opp opps IH]; intros records; simpl; [discriminate|].
  unfold extract_record.
  destruct (get_default "description" (Some "") opp); [apply IH|discriminate].
Qed.

Lemma extract_records_in_fuel (data : page) : extract_records data <> OutOfFuel.
Proof. apply extract_loop_in_fuel. Qed.

Lemma fetches_app (l l' : list event) :
  fetches (l ++ l')%list = (fetches l ++ fetches l')%list.
Proof.
  induction l as [|[r|s|t|p rows] l IH]; simpl; auto.
  now rewrite IH.
Qed.

Lemma console_app (l l' : list event) :
  console (l ++ l')%list = (console l ++ console l')%list.
Proof.
  induction l as [|[r|s|t|p rows] l IH]; simpl; auto.
  now rewrite IH.
Qed.

Section Pagination.

Variable key : string.
Variable now : Calendar.datetime.
Variable backend : request -> reply.
Variables keyword naics_code notice_type set_aside : jstr.
Variable max_results : Z.
Variables posted_from posted_to : string.

Hypothesis key_set : PyStr.truthy key = true.
Hypothesis from_set : PyStr.truthy posted_from = true.
Hypothesis to_set : PyStr.truthy posted_to = true.

Let req (o : Z) : request :=
  request_for key keyword naics_code set_aside notice_type
    posted_from posted_to page_size o.

Let loop : nat -> Z -> table -> M table :=
  scrape_loop (Some key) now backend keyword naics_code notice_type
    set_aside max_results posted_from posted_to.

(** One iteration of the loop, by cases on the reply and on the page. *)
Lemma scrape_loop_unfold (fuel : nat) (o : Z) (acc : table) :
  loop (S fuel) o acc =
  if o <? max_results then
    match backend (req o) with
    | Fails e => ([Get (req o)], Raise e)
    | Body p =>
        match extract_records p with
        | Ret [] => ([Get (req o)], Ret acc)
        | Ret (r :: rs) =>
            let acc' := (acc ++ r :: rs)%list in
            let line :=
              Print (progress_line (Z.of_nat (List.length acc'))
                                   (Z.min (total_of p) max_results)) in
            if total_of p <=? o + page_size
            then ([Get (req o); line], Ret acc')
            else (Get (req o) :: line :: Sleep 1
                    :: log (loop fuel (o + page_size) acc'),
                  result (loop fuel (o + page_size) acc'))
        | Raise e => ([Get (req o)], Raise e)
        | OutOfFuel => ([Get (req o)], OutOfFuel)
        end
    end
  else ([], Ret acc).
Proof.
  unfold loop; cbn [scrape_loop].
  destruct (o <? max_results); [|reflexivity].
  rewrite (search_opportunities_with_key (Some key) now backend key);
    auto.
  cbv zeta; fold (req o).
  destruct (backend (req o)) as [p|e]; [|reflexivity].
  cbn [reply_outcome bind lift].
  destruct (extract_records p) as [[|r rs]|e|]; try reflexivity.
  cbn [bind print emit app].
  destruct (total_of p <=? o + page_size); [reflexivity|].
  cbn [bind sleep emit app].
  destruct (scrape_loop _ _ _ _ _ _ _ _ _ _ fuel (o + page_size) _)
    as [l [t|e|]]; reflexivity.
Qed.

(** The fuel [scrape] gives the loop is enough. *)
Lemma scrape_loop_in_fuel (fuel : nat) :
  forall o acc,
    (Z.to_nat (max_results - o) < fuel)%nat ->
    result (loop fuel o acc) <> OutOfFuel.
Proof.
  induction fuel as [|fuel IH]; intros o acc Hf; [lia|].
  rewrite scrape_loop_unfold.
  destruct (o <? max_results) eqn:Ho; [|discriminate].
  apply Z.ltb_lt in Ho.
  destruct (backend (req o)) as [p|e]; [|discriminate].
  pose proof (extract_records_in_fuel p) as Hx.
  destruct (extract_records p) as [[|r rs]|e|]; try discriminate;
    [|congruence].
  cbv zeta.
  destruct (total_of p <=? o + page_size); [discriminate|].
  cbn [result snd]; apply IH; unfold page_size; lia.
Qed.




Lemma req_offset (o : Z) : offset_of (req o) = Some o.
Proof.
  unfold req.
  now destruct (request_for_params key keyword naics_code set_aside
                  notice_type posted_from posted_to page_size o) as (H & _).
Qed.

(** At or beyond the cap the loop stops without a request. *)
Lemma scrape_loop_stop (fuel : nat) (o : Z) (acc : table) :
  max_results <= o -> loop (S fuel) o acc = ([], Ret acc).
Proof.
  intros Ho; rewrite scrape_loop_unfold.
  apply Z.ltb_ge in Ho; now rewrite Ho.
Qed.

(** An empty page ends the loop. *)
Lemma scrape_loop_empty (fuel : nat) (o : Z) (acc : table) (p : page) :
  o < max_results -> backend (req o) = Body p -> extract_records p = Ret [] ->
  loop (S fuel) o acc = ([Get (req o)], Ret acc).
Proof.
  intros Ho Hb Hx; rewrite scrape_loop_unfold.
  apply Z.ltb_lt in Ho; now rewrite Ho, Hb, Hx.
Qed.

(** A page with records is appended whole; the loop goes on unless the
    next offset reaches the reported total. *)
Lemma scrape_loop_step (fuel : nat) (o : Z) (acc : table) (p : page)
    (r : opportunity) (rs : table) :
  o < max_results -> backend (req o) = Body p ->
  extract_records p = Ret (r :: rs) ->
  fetches (log (loop (S fuel) o acc))
  = req o :: (if total_of p <=? o + page_size then []
              else fetches (log (loop fuel (o + page_size)
                                   (acc ++ r :: rs)%list)))
  /\ result (loop (S fuel) o acc)
     = (if total_of p <=? o + page_size then Ret (acc ++ r :: rs)%list
        else result (loop fuel (o + page_size) (acc ++ r :: rs)%list)).
Proof.
  intros Ho Hb Hx; rewrite scrape_loop_unfold.
  apply Z.ltb_lt in Ho; rewrite Ho, Hb, Hx; cbv zeta.
  destruct (total_of p <=? o + page_size); split; reflexivity.
Qed.




End Pagination.

(** ** [scrape] around its loop *)

Lemma minus_days_ret (dt : Calendar.datetime) (n : Z) :
  1 <= Calendar.ordinal dt <= Calendar.MAXORDINAL ->
  1 <= Calendar.ordinal dt - n <= Calendar.MAXORDINAL ->
  minus_days dt n
  = Ret (Calendar.mkDatetime (Calendar.ordinal dt - n) (Calendar.hour dt)
           (Calendar.minute dt) (Calendar.second dt)).
Proof.
  unfold minus_days, Calendar.MAXORDINAL; intros H1 H2.
  replace ((n <? -999999999) || (999999999 <? n)) with false
    by (symmetry; apply orb_false_iff; split; apply Z.ltb_ge; lia).
  replace ((1 <=? Calendar.ordinal dt - n)
           && (Calendar.ordinal dt - n <=? 3652059)) with true
    by (symmetry; apply andb_true_iff; split; apply Z.leb_le; lia).
  reflexivity.
Qed.

Lemma minus_days_ordinal (dt from : Calendar.datetime) (n : Z) :
  minus_days dt n = Ret from ->
  Calendar.ordinal from = Calendar.ordinal dt - n
  /\ 1 <= Calendar.ordinal from <= Calendar.MAXORDINAL.
Proof.
  unfold minus_days.
  destruct ((n <? -999999999) || (999999999 <? n)); [discriminate|].
  destruct ((1 <=? Calendar.ordinal dt - n)
            && (Calendar.ordinal dt - n <=? Calendar.MAXORDINAL)) eqn:E;
    [|discriminate].
  intros R; injection R as <-; cbn [Calendar.ordinal].
  apply andb_true_iff in E as [E1 E2].
  apply Z.leb_le in E1, E2; lia.
Qed.

Section ScrapeRun.

Variable API_KEY : option string.
Variable OUTPUT_DIR : string.
Variable now : Calendar.datetime.
Variable backend : request -> reply.
Variables keyword naics_code notice_type set_aside : jstr.
Variables days_back max_results : Z.
Variable from : Calendar.datetime.

Hypothesis window : minus_days now days_back = Ret from.

Let run : M table :=
  scrape API_KEY OUTPUT_DIR now backend keyword naics_code notice_type
    set_aside days_back max_results.

Let pages : M table :=
  scrape_loop API_KEY now backend keyword naics_code notice_type set_aside
    max_results (Calendar.strftime_mdY from) (Calendar.strftime_mdY now)
    (S (Z.to_nat max_results)) 0 [].

(** The requests and the table of [scrape] are those of its loop; a run
    that found nothing prints its notice after the banner. *)
Lemma scrape_run :
  fetches (log run) = fetches (log pages)
  /\ result run = result pages
  /\ (result pages = Ret [] ->
      console (log run)
      = (search_banner keyword naics_code notice_type set_aside days_back
           :: console (log pages) ++ ["No opportunities found."])%list).
Proof.
  unfold run, scrape; rewrite window; cbn [lift bind print emit app].
  fold pages; destruct pages as [l [[|r rs]|e|]];
    cbn [bind print emit ret log result fst snd fetches console app];
    rewrite ?fetches_app, ?console_app, ?app_nil_r;
    cbn [fetches console app]; rewrite ?app_nil_r;
    repeat split; try reflexivity; try discriminate.
Qed.

End ScrapeRun.

(** ** Runs against given services *)

Section Runs.

Variable key : string.
Variable OUTPUT_DIR : string.
Variable now : Calendar.datetime.
Variable backend : request -> reply.
Variables keyword naics_code notice_type set_aside : jstr.
Variable days_back : Z.
Variable from : Calendar.datetime.

Hypothesis key_set : PyStr.truthy key = true.
Hypothesis window : minus_days now days_back = Ret from.

(** C1: against a service that reports 250 records in all and serves
    non-empty pages at the offsets 0, 100 and 200, [scrape] sends exactly
    three requests, for the offsets 0, 100 and 200, when
    [max_results >= 250], and exactly one, for offset 0, when
    [max_results = 50]. *)
Theorem scrape_fetches_of_250 (p0 p1 p2 : page) :
  serves backend 0 p0 -> serves backend 100 p1 -> serves backend 200 p2 ->
  totalRecords p0 = Some 250 -> totalRecords p1 = Some 250 ->
  totalRecords p2 = Some 250 ->
  nonempty p0 -> nonempty p1 -> nonempty p2 ->
  (forall max_results, 250 <= max_results ->
     map offset_of
       (fetches (log (scrape (Some key) OUTPUT_DIR now backend keyword
                        naics_code notice_type set_aside days_back
                        max_results)))
     = [Some 0; Some 100; Some 200])
  /\ map offset_of
       (fetches (log (scrape (Some key) OUTPUT_DIR now backend keyword
                        naics_code notice_type set_aside days_back 50)))
     = [Some 0].
Proof.
  intros S0 S1 S2 T0 T1 T2 (r0 & rs0 & X0) (r1 & rs1 & X1) (r2 & rs2 & X2).
  pose proof (strftime_mdY_truthy from) as Hf.
  pose proof (strftime_mdY_truthy now) as Ht.
  assert (B : forall o p, serves backend o p ->
            backend (request_for key keyword naics_code set_aside
                       notice_type (Calendar.strftime_mdY from)
                       (Calendar.strftime_mdY now) page_size o) = Body p).
  { intros o p Sv; apply Sv, req_offset. }
  assert (Tot : total_of p0 = 250 /\ total_of p1 = 250 /\ total_of p2 = 250).
  { unfold total_of; now rewrite T0, T1, T2. }
  destruct Tot as (Q0 & Q1 & Q2).
  split.
  - intros max_results Hmax.
    destruct (scrape_run (Some key) OUTPUT_DIR now backend keyword naics_code
                notice_type set_aside days_back max_results from window)
      as (-> & _).
    replace (Z.to_nat max_results) with (S (S (Z.to_nat (max_results - 2))))
      by lia.
    destruct (scrape_loop_step key now backend keyword naics_code notice_type
                set_aside max_results _ _ key_set Hf Ht
                (S (S (Z.to_nat (max_results - 2)))) 0 [] p0 r0 rs0
                ltac:(lia) (B _ _ S0) X0) as (-> & _).
    rewrite Q0.
    change (250 <=? 0 + page_size) with false; cbv iota.
    change (0 + page_size) with 100.
    destruct (scrape_loop_step key now backend keyword naics_code notice_type
                set_aside max_results _ _ key_set Hf Ht
                (S (Z.to_nat (max_results - 2))) 100 ([] ++ r0 :: rs0)%list
                p1 r1 rs1 ltac:(lia) (B _ _ S1) X1) as (-> & _).
    rewrite Q1.
    change (250 <=? 100 + page_size) with false; cbv iota.
    change (100 + page_size) with 200.
    destruct (scrape_loop_step key now backend keyword naics_code notice_type
                set_aside max_results _ _ key_set Hf Ht
                (Z.to_nat (max_results - 2)) 200
                (([] ++ r0 :: rs0) ++ r1 :: rs1)%list
                p2 r2 rs2 ltac:(lia) (B _ _ S2) X2) as (-> & _).
    rewrite Q2.
    change (250 <=? 200 + page_size) with true; cbv iota.
    cbn [map]; now rewrite !req_offset.
  - destruct (scrape_run (Some key) OUTPUT_DIR now backend keyword naics_code
                notice_type set_aside days_back 50 from window)
      as (-> & _).
    change (Z.to_nat 50) with (S (Z.to_nat 49)).
    destruct (scrape_loop_step key now backend keyword naics_code notice_type
                set_aside 50 _ _ key_set Hf Ht
                (S (Z.to_nat 49)) 0 [] p0 r0 rs0
                ltac:(lia) (B _ _ S0) X0) as (-> & _).
    rewrite Q0.
    change (250 <=? 0 + page_size) with false; cbv iota.
    change (0 + page_size) with 100.
    rewrite scrape_loop_stop by (auto; lia).
    cbn [map log fst fetches]; now rewrite req_offset.
Qed.




(** [scrape] never runs out of fuel: it returns or raises. *)
Lemma scrape_in_fuel (max_results : Z) :
  result (scrape (Some key) OUTPUT_DIR now backend keyword naics_code
            notice_type set_aside days_back max_results) <> OutOfFuel.
Proof.
  destruct (scrape_run (Some key) OUTPUT_DIR now backend keyword naics_code
              notice_type set_aside days_back max_results from window)
    as (_ & -> & _).
  apply scrape_loop_in_fuel; auto using strftime_mdY_truthy.
  rewrite Z.sub_0_r; lia.
Qed.

End Runs.

(** ** The Run Orchestrator *)

Lemma bind_ret {A B} (m : M A) (k : A -> M B) (a : A) :
  result m = Ret a ->
  log (bind m k) = (log m ++ log (k a))%list
  /\ result (bind m k) = result (k a).
Proof.
  destruct m as [l o]; cbn [result snd]; intros ->; cbn [bind].
  now destruct (k a).
Qed.

Lemma bind_print {B} (text : string) (k : unit -> M B) :
  bind (print text) k = (Print text :: log (k tt), result (k tt)).
Proof. cbn [print emit bind]; now destruct (k tt). Qed.

Section Orchestrator.

Variable key : string.
Variable OUTPUT_DIR : string.
Variable now : Calendar.datetime.
Variable backend : request -> reply.
Variable to_string : list string -> table -> string.

Hypothesis key_set : PyStr.truthy key = true.
Hypothesis today : 1 <= Calendar.ordinal now <= Calendar.MAXORDINAL.
Hypothesis nothing : serves_nothing backend.

(** A profile against a service without records: an empty table, and on
    the console the banner and the notice. *)
Lemma scrape_nothing (keyword naics_code notice_type set_aside : jstr)
    (days_back max_results : Z) :
  1 <= Calendar.ordinal now - days_back <= Calendar.MAXORDINAL ->
  let run := scrape (Some key) OUTPUT_DIR now backend keyword naics_code
               notice_type set_aside days_back max_results in
  result run = Ret []
  /\ console (log run)
     = [ search_banner keyword naics_code notice_type set_aside days_back;
         "No opportunities found." ].
Proof.
  intros Hw run.
  pose proof (minus_days_ret now days_back today Hw) as W.
  destruct (scrape_run (Some key) OUTPUT_DIR now backend keyword naics_code
              notice_type set_aside days_back max_results _ W)
    as (_ & Hr & Hc).
  fold run in Hr, Hc.
  set (from := Calendar.mkDatetime _ _ _ _) in *.
  assert (P : scrape_loop (Some key) now backend keyword naics_code
                notice_type set_aside max_results
                (Calendar.strftime_mdY from) (Calendar.strftime_mdY now)
                (S (Z.to_nat max_results)) 0 [] = ([], Ret [])
              \/ exists rq,
                scrape_loop (Some key) now backend keyword naics_code
                  notice_type set_aside max_results
                  (Calendar.strftime_mdY from) (Calendar.strftime_mdY now)
                  (S (Z.to_nat max_results)) 0 [] = ([Get rq], Ret [])).
  { destruct (Z.lt_ge_cases 0 max_results) as [Hpos|Hneg].
    - right; eexists.
      destruct (nothing (request_for key keyword naics_code set_aside
                           notice_type (Calendar.strftime_mdY from)
                           (Calendar.strftime_mdY now) page_size 0))
        as (p & Hb & Hx).
      apply (scrape_loop_empty key now backend keyword naics_code notice_type
               set_aside max_results _ _ key_set (strftime_mdY_truthy from)
               (strftime_mdY_truthy now) _ 0 [] p Hpos Hb Hx).
    - left.
      apply (scrape_loop_stop key now backend keyword naics_code notice_type
               set_aside max_results _ _ key_set (strftime_mdY_truthy from)
               (strftime_mdY_truthy now) _ 0 [] Hneg). }
  destruct P as [P|(rq & P)]; rewrite P in Hr, Hc;
    (split; [exact Hr|now apply Hc]).
Qed.

(** The loop over the profiles, when none finds anything. *)
Lemma run_searches_nothing (ss : list search) :
  Forall (fun s => 1 <= Calendar.ordinal now - s_days_back s
                   <= Calendar.MAXORDINAL) ss ->
  forall all_dfs,
    result (run_searches (Some key) OUTPUT_DIR now backend ss all_dfs)
    = Ret (all_dfs ++ map (fun _ => []) ss)%list
    /\ console (log (run_searches (Some key) OUTPUT_DIR now backend ss
                       all_dfs))
       = flat_map quiet_profile ss.
Proof.
  induction 1 as [|s ss Hs _ IH]; intros all_dfs.
  - cbn; now rewrite app_nil_r.
  - destruct (scrape_nothing (s_keyword s) (s_naics_code s) (s_notice_type s)
                (s_set_aside s) (s_days_back s) (s_max_results s) Hs)
      as (Hr & Hc).
    cbn [run_searches]; rewrite !bind_print.
    destruct (bind_ret _
                (fun df => run_searches (Some key) OUTPUT_DIR now backend ss
                             (all_dfs ++ [df])%list) _ Hr) as (Bl & Br).
    cbn [log result fst snd console]; rewrite Bl, Br, console_app, Hc.
    match goal with
    | |- context [run_searches _ _ _ _ ss ?a] =>
        destruct (IH a) as (-> & ->)
    end.
    split; [now rewrite <- app_assoc|reflexivity].
Qed.

Lemma combine_nothing (n : list search) :
  combine (map (fun _ => []) n)
  = Raise (ValueError "No objects to concatenate").
Proof.
  unfold combine.
  replace (filter _ (map (fun _ : search => @nil opportunity) n))
    with (@nil table); [reflexivity|].
  induction n; cbn; auto.
Qed.

Lemma main_block_nothing (ss : list search) :
  Forall (fun s => 1 <= Calendar.ordinal now - s_days_back s
                   <= Calendar.MAXORDINAL) ss ->
  let run := main_block (Some key) OUTPUT_DIR now backend to_string ss in
  result run = Raise (ValueError "No objects to concatenate")
  /\ console (log run) = flat_map quiet_profile ss.
Proof.
  intros Hw run.
  destruct (run_searches_nothing ss Hw []) as (Hr & Hc).
  unfold run, main_block.
  destruct (run_searches _ _ _ _ ss []) as [l o].
  cbn [log result fst snd] in Hr, Hc; subst o.
  cbn [bind app lift]; rewrite combine_nothing.
  cbn [log result fst snd]; now rewrite app_nil_r.
Qed.

End Orchestrator.

(** C3 fails on the script: when no profile finds anything, each of the six
    profiles prints its notice, but then [pd.concat] is handed an empty
    list and raises; the final "No opportunities found." is never printed
    and the run ends in a [ValueError]. *)
Theorem main_aborts_when_nothing_found
    (key OUTPUT_DIR : string) (now : Calendar.datetime)
    (backend : request -> reply) (to_string : list string -> table -> string) :
  PyStr.truthy key = true ->
  61 <= Calendar.ordinal now <= Calendar.MAXORDINAL ->
  serves_nothing backend ->
  let run := main (Some key) OUTPUT_DIR now backend to_string in
  result run = Raise (ValueError "No objects to concatenate")
  /\ List.length (filter (String.eqb "No opportunities found.")
                    (console (log run))) = 6%nat
  /\ ~ In (nl ++ "No opportunities found.") (console (log run)).
Proof.
  intros Hk Hnow Hb run.
  destruct (main_block_nothing key OUTPUT_DIR now backend to_string Hk
              ltac:(lia) Hb searches) as (Hr & Hc).
  { unfold searches, Calendar.MAXORDINAL in *.
    repeat constructor; cbn [s_days_back]; lia. }
  fold (main (Some key) OUTPUT_DIR now backend to_string) in Hr, Hc.
  fold run in Hr, Hc; rewrite Hc.
  split; [exact Hr|split; [reflexivity|]].
  intros Hin.
  assert (E : existsb (String.eqb (nl ++ "No opportunities found."))
                (flat_map quiet_profile searches) = true).
  { apply existsb_exists; eexists; split; [exact Hin|apply String.eqb_refl]. }
  vm_compute in E; discriminate.
Qed.

(** ** The properties at sample runs *)

Lemma scrape_fetches_of_250_witness :
  map offset_of
    (fetches (log (scrape (Some "k") "output" sample_now service_250
                     (Some "engineering") None None None 30 500)))
  = [Some 0; Some 100; Some 200]
  /\ map offset_of
       (fetches (log (scrape (Some "k") "output" sample_now service_250
                        (Some "engineering") None None None 30 50)))
     = [Some 0].
Proof.
  assert (S0 : serves service_250 0 (sample_page 250 100))
    by (intros r E; unfold service_250; now rewrite E).
  assert (S1 : serves service_250 100 (sample_page 250 100))
    by (intros r E; unfold service_250; now rewrite E).
  assert (S2 : serves service_250 200 (sample_page 250 50))
    by (intros r E; unfold service_250; now rewrite E).
  assert (N100 : nonempty (sample_page 250 100))
    by (do 2 eexists; vm_compute; reflexivity).
  assert (N50 : nonempty (sample_page 250 50))
    by (do 2 eexists; vm_compute; reflexivity).
  destruct (scrape_fetches_of_250 "k" "output" sample_now service_250
              (Some "engineering") None None None 30 sample_from
              eq_refl eq_refl _ _ _ S0 S1 S2 eq_refl eq_refl eq_refl
              N100 N100 N50)
    as [H250 H50].
  split; [apply H250; lia|exact H50].
Defined.


Lemma main_aborts_when_nothing_found_witness :
  result (main (Some "k") "output" sample_now service_empty no_rendering)
  = Raise (ValueError "No objects to concatenate").
Proof.
  apply (main_aborts_when_nothing_found "k" "output" sample_now service_empty
           no_rendering eq_refl).
  - vm_compute; split; discriminate.
  - intros r; eexists; split; reflexivity.
Defined.

Lemma combine_first_profile_wins_witness :
  exists combined,
    combine [[abc_first]; [abc_second]] = Ret combined
    /\ with_id (Some "ABC123") combined = [abc_first].
Proof.
  apply (combine_first_profile_wins [abc_first] [abc_second] "ABC123"
           abc_first abc_second eq_refl (or_introl eq_refl) eq_refl).
Defined.

Lemma combine_collapses_missing_ids_witness :
  Permutation
    (with_id None
       [sample_record None (Some "a"); abc_first;
        sample_record None (Some "b")])
    ([sample_record None (Some "a")] ++ [sample_record None (Some "b")])
  /\ (List.length
        (with_id None
           [sample_record None (Some "a"); abc_first;
            sample_record None (Some "b")]) <= 2)%nat.
Proof.
  exact (combine_collapses_missing_ids
           [[sample_record None (Some "a"); abc_first;
             sample_record None (Some "c")];
            [sample_record None (Some "b")];
            [sample_record None (Some "d")]]
           [sample_record None (Some "a"); abc_first;
            sample_record None (Some "b")] eq_refl).
Defined.

(** C10 (as stated) fails when the records without identifier come from
    tables of both kinds: the first table holds an identifier, so its
    record without one has a [NaN] cell; the second holds none, so its
    record has a [None] cell; both are kept. *)
Lemma combine_keeps_two_missing_ids :
  combine [[sample_record None (Some "a"); abc_first];
           [sample_record None (Some "b")]]
  = Ret [sample_record None (Some "a"); abc_first;
         sample_record None (Some "b")]
  /\ with_id None
       (List.concat [[sample_record None (Some "a"); abc_first];
                     [sample_record None (Some "b")]])
     = [sample_record None (Some "a"); sample_record None (Some "b")]
  /\ with_id None
       [sample_record None (Some "a"); abc_first;
        sample_record None (Some "b")]
     = [sample_record None (Some "a"); sample_record None (Some "b")]
  /\ ~ (List.length
          (with_id None
             [sample_record None (Some "a"); abc_first;
              sample_record None (Some "b")]) <= 1)%nat.
Proof.
  split; [reflexivity|split; [reflexivity|split; [reflexivity|]]].
  cbn; lia.
Qed.

Lemma search_opportunities_without_key_witness :
  search_opportunities None sample_now service_250 (Some "engineering") None
    None None None None 100 0
  = ([], Raise (ValueError KEY_NOT_SET)).
Proof.
  apply (search_opportunities_without_key None sample_now service_250
           (Some "engineering") None None None None None 100 0 eq_refl).
Defined.





(** ** More on the Query Builder and the Page Fetcher *)

Lemma lookup_app_none {V} (key : string) (d d' : list (string * V)) :
  lookup key d = None -> lookup key (d ++ d')%list = lookup key d'.
Proof.
  induction d as [|[k x] d IH]; simpl; [reflexivity|].
  destruct (String.eqb k key); [discriminate|exact IH].
Qed.

(** A key that [set_if] does not set is looked up in the dictionary it was
    given. *)
Lemma lookup_set_if_other (key k : string) (v : jstr)
    (ps : list (string * pval)) :
  String.eqb k key = false ->
  lookup key (set_if k v ps) = lookup key ps.
Proof.
  intros Hk; unfold set_if; destruct (truthy v); [|reflexivity].
  destruct (lookup key ps) as [x|] eqn:E.
  - now apply lookup_app.
  - rewrite (lookup_app_none _ _ _ E); simpl; now rewrite Hk.
Qed.

(** The key [set_if] may set, when the dictionary does not hold it yet. *)
Lemma lookup_set_if_same (k : string) (v : jstr) (ps : list (string * pval)) :
  lookup k ps = None ->
  lookup k (set_if k v ps)
  = if truthy v then Some (PStr (PyStr.of_opt v)) else None.
Proof.
  intros E; unfold set_if; destruct (truthy v); [|exact E].
  rewrite (lookup_app_none _ _ _ E); simpl; now rewrite String.eqb_refl.
Qed.

Section QueryBuilder.

Variable key : string.
Variable now : Calendar.datetime.
Variable backend : request -> reply.
Variables keyword naics_code posted_from posted_to set_aside notice_type : jstr.
Variables limit offset : Z.
Variable month_ago : Calendar.datetime.

Hypothesis key_set : PyStr.truthy key = true.
Hypothesis from_known :
  truthy posted_from = true \/ minus_days now 30 = Ret month_ago.

Let call : M page :=
  search_opportunities (Some key) now backend keyword naics_code posted_from
    posted_to set_aside notice_type limit offset.

Let sent : request :=
  request_for key keyword naics_code set_aside notice_type
    (or_else posted_from (Calendar.strftime_mdY month_ago))
    (or_else posted_to (Calendar.strftime_mdY now)) limit offset.

Lemma search_opportunities_sends :
  call = ([Get sent], reply_outcome (backend sent)).
Proof.
  unfold call, sent, search_opportunities, requests_get.
  cbn [truthy]; rewrite key_set; cbn [negb PyStr.of_opt].
  assert (E : (if truthy posted_from then ret (PyStr.of_opt posted_from)
               else d <- lift (minus_days now 30) ;;
                    ret (Calendar.strftime_mdY d))
              = ret (or_else posted_from (Calendar.strftime_mdY month_ago))).
  { unfold or_else, truthy.
    destruct posted_from as [s|]; [destruct (PyStr.truthy s) eqn:T|].
    - reflexivity.
    - destruct from_known as [F| ->]; [cbn in F; congruence|reflexivity].
    - destruct from_known as [F| ->]; [discriminate|reflexivity]. }
  rewrite E; unfold request_for, reply_outcome; cbn.
  now destruct (backend _).
Qed.

(** X1: a call with a credential sends exactly one request, to the search
    endpoint, with a timeout of 30 and with the credential, the limit and
    the offset it was given; it ends as the service replies, a failure of
    the service being the failure of the call (nothing is tried again). *)
Theorem search_opportunities_one_request :
  exists r,
    log call = [Get r]
    /\ result call = reply_outcome (backend r)
    /\ url r = BASE_URL /\ timeout r = 30
    /\ lookup "api_key" (params r) = Some (PStr key)
    /\ lookup "limit" (params r) = Some (PInt limit)
    /\ lookup "offset" (params r) = Some (PInt offset).
Proof.
  exists sent; rewrite search_opportunities_sends.
  repeat split; unfold sent, request_for; cbn [params];
    now repeat apply lookup_set_if.
Qed.

(** X2: a date bound that is missing or empty is replaced by its default,
    thirty days before today for [postedFrom] and today for [postedTo];
    a bound that is given is sent as it is. *)
Theorem search_opportunities_date_defaults :
  exists r,
    fetches (log call) = [r]
    /\ lookup "postedFrom" (params r)
       = Some (PStr (match posted_from with
                     | Some (String c s) => String c s
                     | _ => Calendar.strftime_mdY month_ago
                     end))
    /\ lookup "postedTo" (params r)
       = Some (PStr (match posted_to with
                     | Some (String c s) => String c s
                     | _ => Calendar.strftime_mdY now
                     end)).
Proof.
  exists sent; rewrite search_opportunities_sends; cbn [log fst fetches].
  split; [reflexivity|].
  split; unfold sent, request_for; cbn [params].
  - repeat apply lookup_set_if; cbn.
    now destruct posted_from as [[|c s]|].
  - repeat apply lookup_set_if; cbn.
    now destruct posted_to as [[|c s]|].
Qed.

(** X3: an optional filter is sent exactly when it is a non-empty string,
    under its own parameter name and with its value; a filter that is
    [None] or empty leaves no parameter at all. *)
Theorem search_opportunities_optional_filters :
  let sent_as (v : jstr) :=
    match v with
    | Some (String c s) => Some (PStr (String c s))
    | _ => None
    end in
  exists r,
    fetches (log call) = [r]
    /\ lookup "keyword" (params r) = sent_as keyword
    /\ lookup "ncode" (params r) = sent_as naics_code
    /\ lookup "typeOfSetAside" (params r) = sent_as set_aside
    /\ lookup "ptype" (params r) = sent_as notice_type.
Proof.
  intros sent_as.
  exists sent; rewrite search_opportunities_sends; cbn [log fst fetches].
  split; [reflexivity|].
  assert (T : forall v : jstr,
            (if truthy v then Some (PStr (PyStr.of_opt v)) else None)
            = sent_as v) by (now intros [[|c s]|]).
  repeat split; unfold sent, request_for; cbn [params].
  - rewrite !lookup_set_if_other by reflexivity.
    rewrite lookup_set_if_same by reflexivity; apply T.
  - rewrite !lookup_set_if_other by reflexivity.
    rewrite lookup_set_if_same
      by (rewrite !lookup_set_if_other by reflexivity; reflexivity).
    apply T.
  - rewrite !lookup_set_if_other by reflexivity.
    rewrite lookup_set_if_same
      by (rewrite !lookup_set_if_other by reflexivity; reflexivity).
    apply T.
  - rewrite lookup_set_if_same
      by (rewrite !lookup_set_if_other by reflexivity; reflexivity).
    apply T.
Qed.

End QueryBuilder.

(** ** More on the Record Extractor *)

Lemma extract_loop_app (opps : list entry) :
  forall records rs,
    Forall2 (fun e r => extract_record e = Ret r) opps rs ->
    extract_loop opps records = Ret (records ++ rs)%list.
Proof.
  induction opps as [|e opps IH]; intros records rs H; inversion H; subst.
  - cbn; now rewrite app_nil_r.
  - cbn [extract_loop].
    match goal with E : extract_record e = _ |- _ => rewrite E end.
    rewrite (IH _ _ ltac:(eassumption)), <- app_assoc; reflexivity.
Qed.

Lemma extract_loop_inv (opps : list entry) :
  forall records t,
    extract_loop opps records = Ret t ->
    exists rs, t = (records ++ rs)%list
               /\ Forall2 (fun e r => extract_record e = Ret r) opps rs.
Proof.
  induction opps as [|e opps IH]; intros records t; cbn [extract_loop].
  - intros E; injection E as <-; exists []; split;
      [now rewrite app_nil_r|constructor].
  - destruct (extract_record e) as [r| |] eqn:X; try discriminate.
    intros E; apply IH in E as (rs & -> & F).
    exists (r :: rs); split; [now rewrite <- app_assoc|now constructor].
Qed.

Lemma extract_record_fields (e : entry) :
  lookup "description" e <> Some None ->
  exists r, extract_record e = Ret r
            /\ notice_id r = get "noticeId" e /\ title r = get "title" e.
Proof.
  intros He; unfold extract_record, get_default.
  destruct (lookup "description" e) as [[d|]|];
    [ | now elim He | ];
    (eexists; split; [reflexivity|split; reflexivity]).
Qed.

(** X4: a page whose entries have no [null] description extracts to one
    record per entry, in the order of the entries, each record being the
    one of its entry. *)
Theorem extract_records_in_order (p : page) (entries : list entry) :
  opportunitiesData p = Some entries ->
  Forall (fun e => lookup "description" e <> Some None) entries ->
  exists rs,
    extract_records p = Ret rs
    /\ List.length rs = List.length entries
    /\ Forall2 (fun e r => extract_record e = Ret r
                           /\ notice_id r = get "noticeId" e
                           /\ title r = get "title" e) entries rs.
Proof.
  intros Data Hok.
  assert (H : exists rs,
             Forall2 (fun e r => extract_record e = Ret r
                                 /\ notice_id r = get "noticeId" e
                                 /\ title r = get "title" e) entries rs).
  { clear Data; induction entries as [|e es IH].
    - exists []; constructor.
    - inversion Hok as [|x l He Hes]; subst.
      destruct (IH Hes) as (rs & F).
      destruct (extract_record_fields e He) as (r & X).
      exists (r :: rs); now constructor. }
  destruct H as (rs & F); exists rs.
  assert (F' : Forall2 (fun e r => extract_record e = Ret r) entries rs).
  { clear -F; induction F; constructor; intuition. }
  unfold extract_records; rewrite Data.
  rewrite (extract_loop_app _ [] rs F'); cbn [app].
  split; [reflexivity|split; [|exact F]].
  symmetry; exact (Forall2_length F).
Qed.

(** X5: one entry with a [null] description is enough for the whole page
    to be lost: the extractor raises and returns none of the records, not
    even those of the entries before it. *)
Theorem extract_records_null_description (p : page) (entries : list entry) :
  opportunitiesData p = Some entries ->
  Exists (fun e => lookup "description" e = Some None) entries ->
  extract_records p
  = Raise (TypeError "'NoneType' object is not subscriptable").
Proof.
  intros Data Hex; unfold extract_records; rewrite Data; clear Data.
  generalize (@nil opportunity).
  induction Hex as [e es He|e es _ IH]; intros records; cbn [extract_loop].
  - now rewrite (extract_record_null_description e He).
  - destruct (extract_record e) as [r|x|] eqn:X.
    + apply IH.
    + revert X; unfold extract_record.
      destruct (get_default "description" (Some "") e);
        intros X; inversion X; reflexivity.
    + revert X; unfold extract_record.
      destruct (get_default "description" (Some "") e);
        intros X; inversion X.
Qed.

Lemma extract_record_well_formed (e : entry) (r : opportunity) :
  extract_record e = Ret r -> well_formed r.
Proof.
  unfold extract_record, well_formed.
  destruct (get_default "description" (Some "") e) as [d|]; [|discriminate].
  intros E; injection E as <-; split.
  - change (String.length (PyStr.slice_to 500 d) <= 500)%nat.
    rewrite slice_to_length; lia.
  - change (match get "noticeId" e with
            | Some (String c s) =>
                (if truthy (get "noticeId" e)
                 then "https://sam.gov/opp/"
                      ++ PyStr.of_opt (get "noticeId" e) ++ "/view"
                 else "")
                = "https://sam.gov/opp/" ++ String c s ++ "/view"
            | _ => (if truthy (get "noticeId" e)
                    then "https://sam.gov/opp/"
                         ++ PyStr.of_opt (get "noticeId" e) ++ "/view"
                    else "") = ""
            end).
    now destruct (get "noticeId" e) as [[|c s]|].
Qed.

(** Every record the extractor returns is well formed. *)
Lemma extract_records_well_formed (p : page) (t : table) :
  extract_records p = Ret t -> Forall well_formed t.
Proof.
  unfold extract_records; intros E.
  apply extract_loop_inv in E as (rs & -> & F); cbn [app].
  induction F as [|e r es rs X _ IH]; constructor; [|exact IH].
  now apply (extract_record_well_formed e).
Qed.

(** ** More on the Pagination Driver *)

Lemma api_key_cases (API_KEY : option string) :
  truthy API_KEY = false
  \/ exists key, API_KEY = Some key /\ PyStr.truthy key = true.
Proof.
  destruct API_KEY as [key|]; [|now left].
  destruct (PyStr.truthy key) eqn:T; [right; now exists key|now left].
Qed.

(** Without a credential the loop raises at its first request, if it gets
    that far. *)
Lemma scrape_loop_no_key (API_KEY : option string) (now : Calendar.datetime)
    (backend : request -> reply)
    (keyword naics_code notice_type set_aside : jstr) (max_results : Z)
    (posted_from posted_to : string) (fuel : nat) (o : Z) (acc : table) :
  truthy API_KEY = false ->
  scrape_loop API_KEY now backend keyword naics_code notice_type set_aside
    max_results posted_from posted_to (S fuel) o acc
  = if o <? max_results then ([], Raise (ValueError KEY_NOT_SET))
    else ([], Ret acc).
Proof.
  intros H; cbn [scrape_loop]; unfold search_opportunities; rewrite H.
  now destruct (o <? max_results).
Qed.

Lemma files_app (l l' : list event) :
  files (l ++ l')%list = (files l ++ files l')%list.
Proof.
  induction l as [|[r|s|t|p rows] l IH]; simpl; auto.
  now rewrite IH.
Qed.

Lemma pauses_app (l l' : list event) :
  pauses (l ++ l')%list = (pauses l ++ pauses l')%list.
Proof.
  induction l as [|[r|s|t|p rows] l IH]; simpl; auto.
  now rewrite IH.
Qed.

(** Events without a request do not disturb the pace. *)
Lemma paced_app (l l' : list event) :
  forall rested,
    paced rested l = true -> fetches l' = [] ->
    paced rested (l ++ l')%list = true.
Proof.
  induction l as [|[r|s|t|p rows] l IH]; intros rested; simpl.
  - intros _; revert rested.
    induction l' as [|[r|s|t|p rows] l' IH']; intros rested; simpl; auto.
    discriminate.
  - intros H F; apply andb_true_iff in H as [-> H]; simpl; auto.
  - auto.
  - auto.
  - auto.
Qed.

Section Driver.

Variable key : string.
Variable now : Calendar.datetime.
Variable backend : request -> reply.
Variables keyword naics_code notice_type set_aside : jstr.
Variable max_results : Z.
Variables posted_from posted_to : string.

Hypothesis key_set : PyStr.truthy key = true.
Hypothesis from_set : PyStr.truthy posted_from = true.
Hypothesis to_set : PyStr.truthy posted_to = true.

Let req (o : Z) : request :=
  request_for key keyword naics_code set_aside notice_type
    posted_from posted_to page_size o.

Let loop : nat -> Z -> table -> M table :=
  scrape_loop (Some key) now backend keyword naics_code notice_type
    set_aside max_results posted_from posted_to.

Let unfold_loop (fuel : nat) (o : Z) (acc : table) :=
  scrape_loop_unfold key now backend keyword naics_code notice_type
    set_aside max_results posted_from posted_to key_set from_set to_set
    fuel o acc.

(** The loop sends at most one request per started hundred below the cap. *)
Lemma scrape_loop_bound (fuel : nat) :
  forall o acc,
    (List.length (fetches (log (loop fuel o acc)))
     <= Z.to_nat ((max_results - o + 99) / 100))%nat.
Proof.
  induction fuel as [|fuel IH]; intros o acc; [cbn; lia|].
  unfold loop; rewrite unfold_loop; fold loop.
  destruct (o <? max_results) eqn:Ho; [|cbn; lia].
  apply Z.ltb_lt in Ho.
  assert (One : (1 <= Z.to_nat ((max_results - o + 99) / 100))%nat).
  { assert (1 <= (max_results - o + 99) / 100)
      by (apply Z.div_le_lower_bound; lia).
    lia. }
  destruct (backend _) as [p|e]; [|exact One].
  destruct (extract_records p) as [[|r rs]|e|]; try exact One.
  cbv zeta; destruct (total_of p <=? o + page_size);
    cbn [log fst fetches List.length]; [exact One|].
  specialize (IH (o + page_size) (acc ++ r :: rs)%list).
  unfold page_size in *.
  replace (max_results - o + 99) with (max_results - (o + 100) + 99 + 1 * 100)
    by lia.
  rewrite Z.div_add by lia.
  assert (0 <= (max_results - (o + 100) + 99) / 100)
    by (apply Z.div_pos; lia).
  lia.
Qed.

(** The requests of the loop are those for the offsets [o], [o + 100],
    [o + 200] and so on. *)
Lemma scrape_loop_requests (fuel : nat) :
  forall o acc,
    fetches (log (loop fuel o acc))
    = map (fun k => req (o + page_size * Z.of_nat k))
          (seq 0 (List.length (fetches (log (loop fuel o acc))))).
Proof.
  induction fuel as [|fuel IH]; intros o acc; [reflexivity|].
  assert (One : [req o] = map (fun k => req (o + page_size * Z.of_nat k))
                            (seq 0 1)).
  { cbn; now rewrite Z.add_0_r. }
  unfold loop; rewrite unfold_loop; fold loop; fold (req o).
  destruct (o <? max_results); [|reflexivity].
  destruct (backend (req o)) as [p|e]; [|exact One].
  destruct (extract_records p) as [[|r rs]|e|]; try exact One.
  cbv zeta; destruct (total_of p <=? o + page_size);
    cbn [log fst fetches List.length]; [exact One|].
  cbn [seq map]; rewrite Z.add_0_r; f_equal.
  rewrite IH at 1.
  rewrite <- seq_shift, map_map.
  apply map_ext; intros k; f_equal; unfold page_size; lia.
Qed.

(** Where the loop goes on: a request is followed by another only if its
    page had records and the next offset is below both the total the page
    reported and the cap. *)
Lemma scrape_loop_goes_on (fuel : nat) :
  forall o acc before rq rq' after,
    fetches (log (loop fuel o acc)) = (before ++ rq :: rq' :: after)%list ->
    exists p r rs o',
      backend rq = Body p /\ extract_records p = Ret (r :: rs)
      /\ offset_of rq' = Some o' /\ o' < total_of p /\ o' < max_results.
Proof.
  induction fuel as [|fuel IH]; intros o acc before rq rq' after.
  - cbn; now destruct before.
  - assert (Short : forall x : request,
              [x] = (before ++ rq :: rq' :: after)%list -> False).
    { intros x E; apply (f_equal (@List.length request)) in E.
      rewrite length_app in E; cbn in E; lia. }
    unfold loop; rewrite unfold_loop; fold loop; fold (req o).
    destruct (o <? max_results); [|cbn; now destruct before].
    destruct (backend (req o)) as [p|e] eqn:Hb;
      [|intros E; now elim (Short _ E)].
    destruct (extract_records p) as [[|r rs]|e|] eqn:Hx;
      try (intros E; now elim (Short _ E)).
    cbv zeta; destruct (total_of p <=? o + page_size) eqn:Ht;
      cbn [log fst fetches]; [intros E; now elim (Short _ E)|].
    apply Z.leb_gt in Ht.
    destruct before as [|x before]; cbn [app]; intros E;
      injection E as E1 E2.
    + subst rq.
      destruct fuel as [|fuel']; [discriminate|].
      revert E2; unfold loop; rewrite unfold_loop; fold loop.
      destruct (o + page_size <? max_results) eqn:Hn; [|discriminate].
      apply Z.ltb_lt in Hn.
      intros E2.
      assert (rq' = req (o + page_size)).
      { revert E2; fold (req (o + page_size)).
        destruct (backend (req (o + page_size))) as [p'|e'];
          [|cbn [log fst fetches]; intros E; injection E as E _;
            now symmetry].
        destruct (extract_records p') as [[|r' rs']|e'|];
          try (cbn [log fst fetches]; intros E; injection E as E _;
               now symmetry).
        cbv zeta; destruct (total_of p' <=? _);
          cbn [log fst fetches]; intros E; injection E as E _;
          now symmetry. }
      subst rq'.
      exists p, r, rs, (o + page_size); repeat split; auto.
      apply req_offset.
    + now apply (IH _ _ _ _ _ _ E2).
Qed.

(** The loop writes no file, pauses one second at a time, and never sends
    two requests without a pause between them. *)
Lemma scrape_loop_quiet (fuel : nat) :
  forall o acc,
    files (log (loop fuel o acc)) = []
    /\ Forall (eq 1) (pauses (log (loop fuel o acc)))
    /\ paced true (log (loop fuel o acc)) = true.
Proof.
  induction fuel as [|fuel IH]; intros o acc; [now cbn|].
  unfold loop; rewrite unfold_loop; fold loop.
  destruct (o <? max_results); [|now cbn].
  destruct (backend _) as [p|e]; [|now cbn].
  destruct (extract_records p) as [[|r rs]|e|]; try now cbn.
  cbv zeta; destruct (total_of p <=? o + page_size); [now cbn|].
  destruct (IH (o + page_size) (acc ++ r :: rs)%list) as (F & P & C).
  cbn [log fst files pauses paced andb]; auto.
Qed.

(** The rows of the loop are well formed when those it starts from are. *)
Lemma scrape_loop_well_formed (fuel : nat) :
  forall o acc t,
    Forall well_formed acc ->
    result (loop fuel o acc) = Ret t -> Forall well_formed t.
Proof.
  induction fuel as [|fuel IH]; intros o acc t Hacc; [discriminate|].
  unfold loop; rewrite unfold_loop; fold loop.
  destruct (o <? max_results); [|now intros [= <-]].
  destruct (backend _) as [p|e]; [|discriminate].
  destruct (extract_records p) as [[|r rs]|e|] eqn:Hx; try discriminate;
    [now intros [= <-]|].
  apply extract_records_well_formed in Hx.
  assert (Hall : Forall well_formed (acc ++ r :: rs)%list)
    by (apply Forall_app; auto).
  cbv zeta; destruct (total_of p <=? o + page_size); cbn [result snd].
  - now intros [= <-].
  - now apply IH.
Qed.

End Driver.

(** ** More on [scrape] *)

Lemma minus_days_cases (dt : Calendar.datetime) (n : Z) :
  (exists d, minus_days dt n = Ret d)
  \/ (exists msg, minus_days dt n = Raise (OverflowError msg)).
Proof.
  unfold minus_days.
  destruct ((n <? -999999999) || (999999999 <? n)); [right; now eexists|].
  destruct ((1 <=? Calendar.ordinal dt - n)
            && (Calendar.ordinal dt - n <=? Calendar.MAXORDINAL));
    [left|right]; now eexists.
Qed.

Section ScrapeShape.

Variable API_KEY : option string.
Variable OUTPUT_DIR : string.
Variable now : Calendar.datetime.
Variable backend : request -> reply.
Variables keyword naics_code notice_type set_aside : jstr.
Variables days_back max_results : Z.

Let run : M table :=
  scrape API_KEY OUTPUT_DIR now backend keyword naics_code notice_type
    set_aside days_back max_results.

Let banner : event :=
  Print (search_banner keyword naics_code notice_type set_aside days_back).

Let pages (from : Calendar.datetime) : M table :=
  scrape_loop API_KEY now backend keyword naics_code notice_type set_aside
    max_results (Calendar.strftime_mdY from) (Calendar.strftime_mdY now)
    (S (Z.to_nat max_results)) 0 [].

(** A window that cannot be represented ends [scrape] before anything
    happened. *)
Lemma scrape_overflow (e : exn) :
  minus_days now days_back = Raise e -> run = ([], Raise e).
Proof. intros H; unfold run, scrape; now rewrite H. Qed.

(** [scrape], by cases on what its loop gave. *)
Lemma scrape_shape (from : Calendar.datetime) :
  minus_days now days_back = Ret from ->
  run = match result (pages from) with
        | Ret [] =>
            (banner :: log (pages from) ++ [Print "No opportunities found."],
             Ret [])
        | Ret (r :: rs) =>
            (banner :: log (pages from)
               ++ [ ToCsv (csv_path OUTPUT_DIR now keyword naics_code)
                      (r :: rs);
                    Print (saved_line (List.length (r :: rs))
                             (csv_path OUTPUT_DIR now keyword naics_code)) ],
             Ret (r :: rs))
        | Raise e => (banner :: log (pages from), Raise e)
        | OutOfFuel => (banner :: log (pages from), OutOfFuel)
        end%list.
Proof.
  intros W; unfold run, scrape; rewrite W; cbn [lift bind app].
  rewrite bind_print; fold (pages from).
  destruct (pages from) as [l [[|r rs]|e|]];
    cbn [bind print emit ret log result fst snd app];
    rewrite ?app_nil_r; reflexivity.
Qed.

(** What the loop of [scrape] does, whatever the credential. *)
Lemma scrape_pages (from : Calendar.datetime) :
  (List.length (fetches (log (pages from)))
   <= Z.to_nat ((max_results + 99) / 100))%nat
  /\ (exists n,
        map offset_of (fetches (log (pages from)))
        = map (fun k => Some (page_size * Z.of_nat k)) (seq 0 n)
        /\ Forall (fun r => lookup "limit" (params r) = Some (PInt page_size))
                  (fetches (log (pages from))))
  /\ files (log (pages from)) = []
  /\ Forall (eq 1) (pauses (log (pages from)))
  /\ paced true (log (pages from)) = true
  /\ result (pages from) <> OutOfFuel
  /\ (forall t, result (pages from) = Ret t -> Forall well_formed t).
Proof.
  destruct (api_key_cases API_KEY) as [No|(key & -> & Yes)].
  - unfold pages; rewrite scrape_loop_no_key by exact No.
    destruct (0 <? max_results); cbn; repeat split;
      try lia; try (exists 0%nat; split; constructor);
      try constructor; try discriminate.
    intros t [= <-]; constructor.
  - pose proof (strftime_mdY_truthy from) as Hf.
    pose proof (strftime_mdY_truthy now) as Ht.
    unfold pages; repeat split.
    + pose proof (scrape_loop_bound key now backend keyword naics_code
                    notice_type set_aside max_results _ _ Yes Hf Ht
                    (S (Z.to_nat max_results)) 0 []) as B.
      now rewrite Z.sub_0_r in B.
    + eexists; split.
      * rewrite (scrape_loop_requests key now backend keyword naics_code
                   notice_type set_aside max_results _ _ Yes Hf Ht) at 1.
        rewrite map_map; apply map_ext; intros k.
        rewrite req_offset; f_equal; lia.
      * rewrite (scrape_loop_requests key now backend keyword naics_code
                   notice_type set_aside max_results _ _ Yes Hf Ht).
        apply Forall_map, Forall_forall; intros k _.
        apply request_for_params.
    + apply (scrape_loop_quiet key now backend keyword naics_code
               notice_type set_aside max_results _ _ Yes Hf Ht).
    + apply (scrape_loop_quiet key now backend keyword naics_code
               notice_type set_aside max_results _ _ Yes Hf Ht).
    + apply (scrape_loop_quiet key now backend keyword naics_code
               notice_type set_aside max_results _ _ Yes Hf Ht).
    + apply scrape_loop_in_fuel; auto.
      rewrite Z.sub_0_r; lia.
    + intros t; apply (scrape_loop_well_formed key now backend keyword
               naics_code notice_type set_aside max_results _ _ Yes Hf Ht).
      constructor.
Qed.

End ScrapeShape.

Lemma tag_char_lower (c : ascii) :
  tag_char (PyStr.lower_char (if Ascii.eqb c " " then "_"%char else c)).
Proof.
  destruct c as [[] [] [] [] [] [] [] []];
    (split; [discriminate|cbv; lia]).
Qed.

Lemma tag_chars (s : string) :
  Forall tag_char
    (list_ascii_of_string (PyStr.lower (PyStr.replace_char " " "_" s)))
  /\ String.length (PyStr.lower (PyStr.replace_char " " "_" s))
     = String.length s.
Proof.
  induction s as [|c s [IH1 IH2]]; cbn; split; auto.
  constructor; [apply tag_char_lower|exact IH1].
Qed.

Section ScrapeFacts.

Variable API_KEY : option string.
Variable OUTPUT_DIR : string.
Variable now : Calendar.datetime.
Variable backend : request -> reply.
Variables keyword naics_code notice_type set_aside : jstr.
Variables days_back max_results : Z.

Let run : M table :=
  scrape API_KEY OUTPUT_DIR now backend keyword naics_code notice_type
    set_aside days_back max_results.

Let shape :=
  scrape_shape API_KEY OUTPUT_DIR now backend keyword naics_code notice_type
    set_aside days_back max_results.

Let pages_facts :=
  scrape_pages API_KEY OUTPUT_DIR now backend keyword naics_code notice_type
    set_aside days_back max_results.

(** The requests, pauses, files and pace of a run, read off its loop. *)
Lemma scrape_log (from : Calendar.datetime) :
  minus_days now days_back = Ret from ->
  let pages :=
    scrape_loop API_KEY now backend keyword naics_code notice_type set_aside
      max_results (Calendar.strftime_mdY from) (Calendar.strftime_mdY now)
      (S (Z.to_nat max_results)) 0 [] in
  fetches (log run) = fetches (log pages)
  /\ pauses (log run) = pauses (log pages)
  /\ paced true (log run) = true
  /\ result run = result pages
  /\ files (log run)
     = match result run with
       | Ret (r :: rs) =>
           [(csv_path OUTPUT_DIR now keyword naics_code, r :: rs)]
       | _ => []
       end.
Proof.
  intros W pages; unfold run; rewrite (shape from W).
  destruct (pages_facts from) as (_ & _ & F & _ & P & _).
  cbv beta in *; fold pages in F, P; fold pages.
  destruct (result pages) as [[|r rs]|e|];
    cbn [log result fst snd fetches pauses files paced];
    rewrite ?fetches_app, ?pauses_app, ?files_app, ?F, ?app_nil_r;
    repeat split; try reflexivity;
    try (apply paced_app; [exact P|reflexivity]); exact P.
Qed.

(** X6: every row of the table [scrape] returns is well formed: its
    description has at most 500 characters, and its link is empty when it
    has no notice identifier (or an empty one) and is the detail page of
    its identifier otherwise. *)
Theorem scrape_rows_well_formed (t : table) :
  result run = Ret t -> Forall well_formed t.
Proof.
  destruct (minus_days_cases now days_back) as [(from & W)|(msg & W)].
  - destruct (scrape_log from W) as (_ & _ & _ & -> & _).
    apply (pages_facts from).
  - unfold run; rewrite (scrape_overflow _ _ _ _ _ _ _ _ _ _ _ W).
    discriminate.
Qed.

(** X7: whatever the service answers, [scrape] sends at most one request
    per started hundred of [max_results], and none when the cap is not
    positive. *)
Theorem scrape_request_bound :
  (List.length (fetches (log run))
   <= Z.to_nat ((max_results + 99) / 100))%nat.
Proof.
  destruct (minus_days_cases now days_back) as [(from & W)|(msg & W)].
  - destruct (scrape_log from W) as (-> & _).
    apply (pages_facts from).
  - unfold run; rewrite (scrape_overflow _ _ _ _ _ _ _ _ _ _ _ W).
    cbn; lia.
Qed.

(** X8: the requests of a run ask, in this order, for the offsets 0, 100,
    200 and so on, without a gap, each with a limit of 100. *)
Theorem scrape_offsets :
  map offset_of (fetches (log run))
  = map (fun k => Some (100 * Z.of_nat k))
        (seq 0 (List.length (fetches (log run))))
  /\ Forall (fun r => lookup "limit" (params r) = Some (PInt 100))
            (fetches (log run)).
Proof.
  destruct (minus_days_cases now days_back) as [(from & W)|(msg & W)].
  - destruct (scrape_log from W) as (-> & _).
    destruct (pages_facts from) as (_ & (n & E & L) & _).
    split; [|exact L].
    rewrite E at 1.
    apply (f_equal (@List.length (option Z))) in E.
    rewrite !length_map, length_seq in E; now rewrite E.
  - unfold run; rewrite (scrape_overflow _ _ _ _ _ _ _ _ _ _ _ W).
    split; constructor.
Qed.

(** X10: [scrape] writes one file, holding the table it returns, when it
    returns a table with rows; when it found nothing or ends in an
    exception it writes no file, so the rows fetched before a failure are
    lost. *)
Theorem scrape_file :
  files (log run)
  = match result run with
    | Ret (r :: rs) => [(csv_path OUTPUT_DIR now keyword naics_code, r :: rs)]
    | _ => []
    end.
Proof.
  destruct (minus_days_cases now days_back) as [(from & W)|(msg & W)].
  - apply (scrape_log from W).
  - unfold run; now rewrite (scrape_overflow _ _ _ _ _ _ _ _ _ _ _ W).
Qed.

(** X11: the file of a run is named after its search term, the keyword if
    there is one, else the NAICS code if there is one, else ["all"], put in
    lower case with its spaces replaced: the tag in the name holds no space
    and no upper-case letter of ASCII, and it has the length of the term
    when the term is ASCII. *)
Theorem scrape_file_name (path : string) (rows : table) :
  In (path, rows) (files (log run)) ->
  exists tag,
    path = path_join OUTPUT_DIR
             ("sam_opportunities_" ++ tag ++ "_"
              ++ Calendar.strftime_stamp now ++ ".csv")
    /\ Forall tag_char (list_ascii_of_string tag)
    /\ (Forall ascii_char
          (list_ascii_of_string (search_term keyword naics_code)) ->
        String.length tag
        = String.length
            (match keyword, naics_code with
             | Some (String c s), _ => String c s
             | _, Some (String c s) => String c s
             | _, _ => "all"
             end)).
Proof.
  destruct (minus_days_cases now days_back) as [(from & W)|(msg & W)].
  - destruct (scrape_log from W) as (_ & _ & _ & _ & ->).
    destruct (result run) as [[|r rs]|e|]; cbn [In];
      try (intros F; now elim F).
    intros [E|[]]; injection E as <- _.
    exists (PyStr.lower (PyStr.replace_char " " "_"
                          (search_term keyword naics_code))).
    split; [reflexivity|].
    destruct (tag_chars (search_term keyword naics_code)) as (T & L).
    split; [exact T|intros _; rewrite L].
    unfold search_term, or_else.
    now destruct keyword as [[|c s]|], naics_code as [[|c' s']|].
  - unfold run; rewrite (scrape_overflow _ _ _ _ _ _ _ _ _ _ _ W).
    intros [].
Qed.

(** X12: within a run no request follows another without a pause between
    them, and every pause is of one second. *)
Theorem scrape_paced :
  paced true (log run) = true /\ Forall (eq 1) (pauses (log run)).
Proof.
  destruct (minus_days_cases now days_back) as [(from & W)|(msg & W)].
  - destruct (scrape_log from W) as (_ & -> & P & _).
    split; [exact P|apply (pages_facts from)].
  - unfold run; rewrite (scrape_overflow _ _ _ _ _ _ _ _ _ _ _ W).
    split; constructor.
Qed.

(** X16: the loop of [scrape] comes to an end for every cap and every
    service: the offset grows by 100 with each request and the fuel given
    to the loop is never used up. *)
Theorem scrape_terminates : result run <> OutOfFuel.
Proof.
  destruct (minus_days_cases now days_back) as [(from & W)|(msg & W)].
  - destruct (scrape_log from W) as (_ & _ & _ & -> & _).
    apply (pages_facts from).
  - unfold run; rewrite (scrape_overflow _ _ _ _ _ _ _ _ _ _ _ W).
    discriminate.
Qed.

(** X14: with a cap that is not positive the loop is never entered: no
    request is sent and the credential is not even looked at; the run
    prints its banner and the notice and returns the empty table. *)
Theorem scrape_zero_cap (from : Calendar.datetime) :
  minus_days now days_back = Ret from -> max_results <= 0 ->
  run = ([ Print (search_banner keyword naics_code notice_type set_aside
                    days_back);
           Print "No opportunities found." ], Ret []).
Proof.
  intros W Hmax; unfold run; rewrite (shape from W).
  cbn [scrape_loop].
  apply Z.ltb_ge in Hmax; rewrite Hmax; reflexivity.
Qed.

(** X13: without a credential and with a positive cap, [scrape] prints its
    banner, sends no request and ends in the configuration error. *)
Theorem scrape_without_key (from : Calendar.datetime) :
  truthy API_KEY = false ->
  minus_days now days_back = Ret from -> 0 < max_results ->
  run = ([ Print (search_banner keyword naics_code notice_type set_aside
                    days_back) ], Raise (ValueError KEY_NOT_SET)).
Proof.
  intros No W Hmax; unfold run; rewrite (shape from W).
  rewrite scrape_loop_no_key by exact No.
  apply Z.ltb_lt in Hmax; rewrite Hmax; reflexivity.
Qed.

(** X15: when the day [days_back] days before today is not a date of the
    calendar, [scrape] ends in an [OverflowError] before it printed or
    sent anything. *)
Theorem scrape_window_overflow :
  1 <= Calendar.ordinal now <= Calendar.MAXORDINAL ->
  ~ 1 <= Calendar.ordinal now - days_back <= Calendar.MAXORDINAL ->
  exists msg, run = ([], Raise (OverflowError msg)).
Proof.
  intros Hnow Hout.
  destruct (minus_days_cases now days_back) as [(from & W)|(msg & W)].
  - apply minus_days_ordinal in W as (E & R); rewrite E in R; contradiction.
  - exists msg; unfold run.
    now rewrite (scrape_overflow _ _ _ _ _ _ _ _ _ _ _ W).
Qed.

End ScrapeFacts.

(** X9: [scrape] asks for a further page only when the page before had
    records and the next offset is below both the total that page reported
    and [max_results]; an empty page, a reached total or a reached cap
    each end the paging. *)
Theorem scrape_goes_on
    (API_KEY : option string) (OUTPUT_DIR : string) (now : Calendar.datetime)
    (backend : request -> reply)
    (keyword naics_code notice_type set_aside : jstr)
    (days_back max_results : Z)
    (before : list request) (rq rq' : request) (after : list request) :
  fetches (log (scrape API_KEY OUTPUT_DIR now backend keyword naics_code
                  notice_type set_aside days_back max_results))
  = (before ++ rq :: rq' :: after)%list ->
  exists p r rs o',
    backend rq = Body p /\ extract_records p = Ret (r :: rs)
    /\ offset_of rq' = Some o' /\ o' < total_of p /\ o' < max_results.
Proof.
  destruct (minus_days_cases now days_back) as [(from & W)|(msg & W)].
  - destruct (scrape_run API_KEY OUTPUT_DIR now backend keyword naics_code
                notice_type set_aside days_back max_results from W)
      as (-> & _).
    destruct (api_key_cases API_KEY) as [No|(key & -> & Yes)].
    + rewrite scrape_loop_no_key by exact No.
      destruct (0 <? max_results); cbn; now destruct before.
    + apply (scrape_loop_goes_on key now backend keyword naics_code
               notice_type set_aside max_results _ _ Yes
               (strftime_mdY_truthy from) (strftime_mdY_truthy now)).
  - rewrite (scrape_overflow _ _ _ _ _ _ _ _ _ _ _ W).
    cbn; now destruct before.
Qed.

(** A run that ends in an exception wrote no file. *)
Lemma scrape_raise_no_file
    (API_KEY : option string) (OUTPUT_DIR : string) (now : Calendar.datetime)
    (backend : request -> reply)
    (keyword naics_code notice_type set_aside : jstr)
    (days_back max_results : Z) (e : exn) :
  result (scrape API_KEY OUTPUT_DIR now backend keyword naics_code
            notice_type set_aside days_back max_results) = Raise e ->
  files (log (scrape API_KEY OUTPUT_DIR now backend keyword naics_code
                notice_type set_aside days_back max_results)) = [].
Proof.
  destruct (minus_days_cases now days_back) as [(from & W)|(msg & W)].
  - destruct (scrape_log API_KEY OUTPUT_DIR now backend keyword naics_code
                notice_type set_aside days_back max_results from W)
      as (_ & _ & _ & _ & ->).
    now intros ->.
  - now rewrite (scrape_overflow _ _ _ _ _ _ _ _ _ _ _ W).
Qed.

(** ** More on the Run Orchestrator *)

Lemma existsb_key (k : Pandas.cell) (seen : list Pandas.cell) :
  existsb (Pandas.key_eqb k) seen = true <-> In k seen.
Proof.
  rewrite existsb_exists; split.
  - intros (x & Hin & E); apply key_eqb_eq in E; now subst.
  - intros Hin; exists k; split; [exact Hin|now apply key_eqb_eq].
Qed.

(** The rows [drop_seen] keeps: rows of the frame, with keys that were
    not seen before and that differ from each other, and one for every key
    of the frame that was not seen before. *)
Lemma drop_seen_spec (df : Pandas.frame) :
  forall seen,
    NoDup (map fst (Pandas.drop_seen seen df))
    /\ (forall kr, In kr (Pandas.drop_seen seen df) ->
                   In kr df /\ ~ In (fst kr) seen)
    /\ (forall kr, In kr df -> ~ In (fst kr) seen ->
                   In (fst kr) (map fst (Pandas.drop_seen seen df))).
Proof.
  induction df as [|[c x] df IH]; intros seen; cbn [Pandas.drop_seen].
  - cbn; split; [constructor|split; intros r []].
  - destruct (existsb (Pandas.key_eqb c) seen) eqn:E.
    + apply existsb_key in E.
      destruct (IH seen) as (N & Sub & Cov); repeat split; auto.
      * right; now apply Sub.
      * now apply Sub.
      * intros kr [<-|Hin] Hnew; [contradiction|auto].
    + assert (Hx : ~ In c seen).
      { intros Hin; apply existsb_key in Hin; congruence. }
      destruct (IH (c :: seen)) as (N & Sub & Cov).
      repeat split.
      * cbn [map fst]; constructor; [|exact N].
        intros Hin; apply in_map_iff in Hin as (kr & Er & Hr).
        apply Sub in Hr as (_ & Hr); apply Hr; left; now symmetry.
      * destruct H as [<-|H]; [now left|right; now apply Sub].
      * destruct H as [<-|H]; [exact Hx|].
        apply Sub in H as (_ & H); intros Hin; apply H; now right.
      * intros kr [<-|Hin] Hnew; [now left|].
        cbn [map fst].
        destruct (Pandas.key_eqb c (fst kr)) eqn:Q.
        -- apply key_eqb_eq in Q; left; exact Q.
        -- right; apply Cov; [exact Hin|].
           intros [F|F]; [|contradiction].
           apply key_eqb_neq in Q; contradiction.
Qed.

Lemma rows_concat (frames : list table) :
  Pandas.rows (List.concat (map Pandas.DataFrame frames))
  = List.concat frames.
Proof.
  induction frames as [|t frames IH]; [reflexivity|].
  cbn [map List.concat]; now rewrite rows_app, rows_DataFrame, IH.
Qed.

(** An identifier among those of the rows is the string of a cell. *)
Lemma present_ids_cell (id : string) (df : Pandas.frame) :
  Forall (fun kr => cell_id (fst kr) = notice_id (snd kr)) df ->
  In id (present_ids (Pandas.rows df)) ->
  In (Pandas.Str id) (map fst df).
Proof.
  unfold present_ids, Pandas.rows.
  induction 1 as [|[c r] df Hc _ IH]; cbn [map flat_map fst snd] in *;
    [intros []|].
  rewrite in_app_iff, <- Hc; intros [Hin|Hin]; [left|right; now apply IH].
  destruct c as [s| |]; cbn [cell_id In] in Hin;
    [destruct Hin as [->|[]]; reflexivity|destruct Hin..].
Qed.

Lemma present_ids_nodup (df : Pandas.frame) :
  Forall (fun kr => cell_id (fst kr) = notice_id (snd kr)) df ->
  NoDup (map fst df) -> NoDup (present_ids (Pandas.rows df)).
Proof.
  induction 1 as [|[c r] df Hc Hdf IH]; [constructor|].
  cbn [map fst]; intros N; inversion N as [|? ? Hnew N']; subst.
  unfold present_ids, Pandas.rows in *; cbn [map flat_map snd fst] in *.
  rewrite <- Hc; destruct c as [s| |]; cbn [cell_id app]; auto.
  constructor; [|auto].
  intros Hin; apply Hnew; now apply present_ids_cell.
Qed.

(** X17: no two rows of the combined table have the same notice
    identifier, of those that have one; its rows are rows of the profiles'
    tables, and every notice identifier found by some profile is still in
    it (a missing one too, when a profile returned a row without). *)
Theorem combine_ids_unique (all_dfs : list table) (combined : table) :
  combine all_dfs = Ret combined ->
  NoDup (present_ids combined)
  /\ (forall r, In r combined -> In r (List.concat all_dfs))
  /\ (forall r, In r (List.concat all_dfs) ->
                In (notice_id r) (map notice_id combined)).
Proof.
  intros E; apply combine_ret in E; subst combined.
  pose proof (concat_cells all_dfs) as C.
  pose proof (drop_duplicates_cells _ C) as C'.
  unfold Pandas.drop_duplicates in *.
  destruct (drop_seen_spec (List.concat (map Pandas.DataFrame all_dfs)) [])
    as (N & Sub & Cov).
  split; [now apply present_ids_nodup|split].
  - intros r Hin; apply in_map_iff in Hin as (kr & <- & Hin).
    rewrite <- rows_concat; apply in_map, Sub, Hin.
  - intros r Hin; rewrite <- rows_concat in Hin.
    apply in_map_iff in Hin as (kr & <- & Hin).
    specialize (Cov kr Hin (fun F => F)).
    apply in_map_iff in Cov as (kr' & Ek & Hin').
    apply in_map_iff; exists (snd kr'); split; [|now apply in_map].
    rewrite Forall_forall in C, C'.
    now rewrite <- (C' kr' Hin'), <- (C kr Hin), Ek.
Qed.

(** X18: combining fails exactly when no profile found anything: the
    tables without rows are left out, and [pd.concat] refuses the empty
    list that remains; as soon as one table has a row, the combined table
    is the deduplicated concatenation. *)
Theorem combine_fails_iff_nothing_found (all_dfs : list table) :
  (Forall (fun df => df = []) all_dfs ->
   combine all_dfs = Raise (ValueError "No objects to concatenate"))
  /\ (Exists (fun df => df <> []) all_dfs ->
      combine all_dfs
      = Ret (Pandas.rows
               (Pandas.drop_duplicates
                  (List.concat (map Pandas.DataFrame all_dfs))))).
Proof.
  split.
  - intros H; unfold combine.
    replace (filter (fun df => negb (Pandas.empty df)) all_dfs)
      with (@nil table); [reflexivity|].
    induction H as [|df dfs -> _ IH]; cbn; auto.
  - intros H; apply combine_some.
    apply Exists_exists in H as (df & Hin & Hne); now exists df.
Qed.

Lemma bind_raise {A B} (m : M A) (k : A -> M B) (e : exn) :
  result m = Raise e -> bind m k = (log m, Raise e).
Proof. destruct m as [l o]; cbn [result snd]; now intros ->. Qed.

Lemma drop_duplicates_rows (df : Pandas.frame) :
  df <> [] -> Pandas.rows (Pandas.drop_duplicates df) <> [].
Proof. destruct df as [|[c r] df]; [congruence|discriminate]. Qed.

Section MainRuns.

Variable API_KEY : option string.
Variable OUTPUT_DIR : string.
Variable now : Calendar.datetime.
Variable backend : request -> reply.
Variable to_string : list string -> table -> string.

Let profile (s : search) : M table :=
  scrape_profile API_KEY OUTPUT_DIR now backend s.

Let searching (ss : list search) (all_dfs : list table) : M (list table) :=
  run_searches API_KEY OUTPUT_DIR now backend ss all_dfs.

Lemma run_searches_cons (s : search) (ss : list search)
    (all_dfs : list table) :
  searching (s :: ss) all_dfs
  = let rest := bind (profile s)
                  (fun df => searching ss (all_dfs ++ [df])%list) in
    (Print (nl ++ rule) :: Print (s_label s) :: Print rule :: log rest,
     result rest).
Proof.
  unfold searching; cbn [run_searches]; rewrite !bind_print.
  reflexivity.
Qed.

(** The loop over the profiles when each of them returns its table. *)
Lemma run_searches_ret (ss : list search) :
  forall dfs all_dfs,
    Forall2 (fun s df => result (profile s) = Ret df) ss dfs ->
    result (searching ss all_dfs) = Ret (all_dfs ++ dfs)%list
    /\ fetches (log (searching ss all_dfs))
       = flat_map (fun s => fetches (log (profile s))) ss
    /\ files (log (searching ss all_dfs))
       = flat_map (fun s => files (log (profile s))) ss.
Proof.
  induction ss as [|s ss IH]; intros dfs all_dfs H; inversion H; subst.
  - cbn; now rewrite app_nil_r.
  - rewrite run_searches_cons; cbv zeta.
    match goal with R : result (profile s) = Ret ?df |- _ =>
      destruct (bind_ret (profile s)
                  (fun df => searching ss (all_dfs ++ [df])%list) df R)
        as (-> & ->)
    end.
    match goal with F : Forall2 _ ss ?l |- _ =>
      destruct (IH l (all_dfs ++ [y])%list F) as (-> & E1 & E2)
    end.
    cbn [log result fst snd fetches files flat_map].
    rewrite fetches_app, files_app, E1, E2, <- app_assoc.
    repeat split.
Qed.

(** The loop over the profiles when one of them raises: the profiles
    after it are not run. *)
Lemma run_searches_raise (s : search) (rest : list search) (e : exn) :
  result (profile s) = Raise e ->
  forall done all_dfs,
    Forall (fun s' => exists df, result (profile s') = Ret df) done ->
    result (searching (done ++ s :: rest) all_dfs) = Raise e
    /\ fetches (log (searching (done ++ s :: rest) all_dfs))
       = flat_map (fun s' => fetches (log (profile s'))) (done ++ [s])
    /\ files (log (searching (done ++ s :: rest) all_dfs))
       = flat_map (fun s' => files (log (profile s'))) (done ++ [s]).
Proof.
  intros R; induction done as [|d done IH]; intros all_dfs H.
  - cbn [app]; rewrite run_searches_cons; cbv zeta.
    rewrite (bind_raise _ _ e R).
    cbn [log result fst snd fetches files flat_map]; rewrite !app_nil_r.
    repeat split.
  - inversion H as [|x l (df & Rd) Hl]; subst.
    cbn [app]; rewrite run_searches_cons; cbv zeta.
    destruct (bind_ret (profile d)
                (fun df => searching (done ++ s :: rest)
                             (all_dfs ++ [df])%list) df Rd) as (-> & ->).
    destruct (IH (all_dfs ++ [df])%list Hl) as (-> & E1 & E2).
    cbn [log result fst snd fetches files flat_map].
    rewrite fetches_app, files_app, E1, E2.
    repeat split.
Qed.

(** X19: a profile that ends in an exception ends the whole run in that
    exception: the profiles declared after it send no request, and no
    combined file is written (the files of the profiles before it stay). *)
Theorem main_block_stops_at_failure
    (done : list search) (s : search) (rest : list search) (e : exn) :
  Forall (fun s' => exists df, result (profile s') = Ret df) done ->
  result (profile s) = Raise e ->
  let run := main_block API_KEY OUTPUT_DIR now backend to_string
               (done ++ s :: rest) in
  result run = Raise e
  /\ fetches (log run)
     = flat_map (fun s' => fetches (log (profile s'))) (done ++ [s])
  /\ files (log run)
     = flat_map (fun s' => files (log (profile s'))) done.
Proof.
  intros Hdone R run.
  destruct (run_searches_raise s rest e R done [] Hdone) as (Hr & Hf & Hw).
  assert (Hs : files (log (profile s)) = [])
    by (apply (scrape_raise_no_file _ _ _ _ _ _ _ _ _ _ e R)).
  unfold run, main_block; fold (searching (done ++ s :: rest) []).
  rewrite (bind_raise _ _ e Hr); cbn [log result fst snd].
  split; [reflexivity|split; [exact Hf|]].
  rewrite Hw, flat_map_app; cbn [flat_map].
  now rewrite Hs, !app_nil_r.
Qed.

(** X20: when every profile returns its table and at least one table has
    rows, the run completes: after the files of the profiles it writes the
    combined file, holding the rows that deduplication leaves of the
    concatenated frames, prints the total, and sends no request beyond
    those of the profiles. *)
Theorem main_block_completes (ss : list search) (dfs : list table) :
  Forall2 (fun s df => result (profile s) = Ret df) ss dfs ->
  Exists (fun df => df <> []) dfs ->
  let run := main_block API_KEY OUTPUT_DIR now backend to_string ss in
  let combined :=
    Pandas.rows (Pandas.drop_duplicates
                   (List.concat (map Pandas.DataFrame dfs))) in
  result run = Ret tt
  /\ fetches (log run) = flat_map (fun s => fetches (log (profile s))) ss
  /\ files (log run)
     = (flat_map (fun s => files (log (profile s))) ss
        ++ [(combined_path OUTPUT_DIR now, combined)])%list
  /\ In ("TOTAL: " ++ PyStr.of_int (Z.of_nat (List.length combined))
         ++ " unique opportunities saved to "
         ++ combined_path OUTPUT_DIR now)
        (console (log run)).
Proof.
  intros Hall Hsome run combined.
  destruct (run_searches_ret ss dfs [] Hall) as (Hr & Hf & Hw).
  cbn [app] in Hr.
  assert (Hc : combine dfs = Ret combined).
  { apply combine_some.
    apply Exists_exists in Hsome as (df & Hin & Hne); now exists df. }
  assert (Hne : Pandas.empty combined = false).
  { assert (N : combined <> []).
    { apply drop_duplicates_rows.
      apply Exists_exists in Hsome as (df & Hin & Hne).
      intros E; apply Hne.
      destruct df as [|r df]; [reflexivity|].
      assert (In r (List.concat dfs))
        by (apply in_concat; exists (r :: df); split; [exact Hin|now left]).
      rewrite <- rows_concat, E in H; contradiction. }
    destruct combined; [congruence|reflexivity]. }
  unfold run, main_block; fold (searching ss []).
  destruct (bind_ret (searching ss [])
              (fun all_dfs =>
                 combined0 <- lift (combine all_dfs) ;;
                 if negb (Pandas.empty combined0)
                 then
                   emit (ToCsv
                           (path_join OUTPUT_DIR
                              ("sam_mohammed_targeted_"
                               ++ Calendar.strftime_stamp now ++ ".csv"))
                           combined0) ;;
                   print (nl ++ rule) ;;
                   print ("TOTAL: "
                          ++ PyStr.of_int (Z.of_nat (List.length combined0))
                          ++ " unique opportunities saved to "
                          ++ path_join OUTPUT_DIR
                               ("sam_mohammed_targeted_"
                                ++ Calendar.strftime_stamp now ++ ".csv")) ;;
                   print rule ;;
                   print (nl ++ "Top 20 results:") ;;
                   print (to_string
                            (filter (fun c => existsb (String.eqb c)
                                                Pandas.columns)
                               ["title"; "department"; "notice_type";
                                "naics_code"; "posted_date";
                                "response_deadline"])
                            (firstn 20 combined0))
                 else print (nl ++ "No opportunities found.")) dfs Hr)
    as (-> & ->).
  rewrite Hc; cbn [lift bind app]; rewrite Hne; cbn [negb].
  cbn [emit print bind app log result fst snd].
  rewrite fetches_app, files_app, console_app, Hf, Hw.
  fold (combined_path OUTPUT_DIR now).
  cbn [fetches files console]; rewrite app_nil_r.
  repeat split.
  apply in_or_app; right; right; left; reflexivity.
Qed.

End MainRuns.

(** ** The further properties at sample runs *)

Lemma search_opportunities_one_request_witness :
  exists r,
    log (search_opportunities (Some "k") sample_now service_250
           (Some "engineering") None None None None None 100 0) = [Get r]
    /\ timeout r = 30.
Proof.
  destruct (search_opportunities_one_request "k" sample_now service_250
              (Some "engineering") None None None None None 100 0
              sample_from eq_refl (or_intror eq_refl))
    as (r & L & _ & _ & T & _).
  exists r; split; [exact L|exact T].
Defined.

Lemma search_opportunities_date_defaults_witness :
  exists r,
    fetches (log (search_opportunities (Some "k") sample_now service_250
                    (Some "engineering") None None (Some "") None None
                    100 0)) = [r]
    /\ lookup "postedFrom" (params r) = Some (PStr "10/05/2026")
    /\ lookup "postedTo" (params r) = Some (PStr "11/04/2026").
Proof.
  exact (search_opportunities_date_defaults "k" sample_now service_250
           (Some "engineering") None None (Some "") None None 100 0
           sample_from eq_refl (or_intror eq_refl)).
Defined.

Lemma search_opportunities_optional_filters_witness :
  exists r,
    fetches (log (search_opportunities (Some "k") sample_now service_250
                    (Some "engineering") (Some "") None None None
                    (Some "o") 100 0)) = [r]
    /\ lookup "keyword" (params r) = Some (PStr "engineering")
    /\ lookup "ncode" (params r) = None
    /\ lookup "typeOfSetAside" (params r) = None
    /\ lookup "ptype" (params r) = Some (PStr "o").
Proof.
  exact (search_opportunities_optional_filters "k" sample_now service_250
           (Some "engineering") (Some "") None None None (Some "o") 100 0
           sample_from eq_refl (or_intror eq_refl)).
Defined.

Lemma extract_records_in_order_witness :
  exists rs,
    extract_records (sample_page 250 3) = Ret rs
    /\ List.length rs = 3%nat.
Proof.
  destruct (extract_records_in_order (sample_page 250 3)
              (repeat sample_entry 3) eq_refl) as (rs & X & L & _).
  - repeat constructor; discriminate.
  - exists rs; split; [exact X|exact L].
Defined.

Lemma extract_records_null_description_witness :
  extract_records
    (mkPage (Some 2) (Some [sample_entry; [("description", None)]]))
  = Raise (TypeError "'NoneType' object is not subscriptable").
Proof.
  apply (extract_records_null_description
           (mkPage (Some 2) (Some [sample_entry; [("description", None)]]))
           [sample_entry; [("description", None)]] eq_refl).
  apply Exists_cons_tl, Exists_cons_hd; reflexivity.
Defined.

Lemma scrape_rows_well_formed_witness :
  Forall well_formed
    (table_of (scrape (Some "k") "output" sample_now service_two
                 None None None None 30 500)).
Proof.
  apply (scrape_rows_well_formed (Some "k") "output" sample_now service_two
           None None None None 30 500).
  vm_compute; reflexivity.
Defined.

Lemma scrape_file_name_witness :
  exists tag,
    "output/sam_opportunities_cad_modeling_20261104_093000.csv"
    = path_join "output"
        ("sam_opportunities_" ++ tag ++ "_"
         ++ Calendar.strftime_stamp sample_now ++ ".csv")
    /\ Forall tag_char (list_ascii_of_string tag).
Proof.
  destruct (scrape_file_name (Some "k") "output" sample_now service_two
              (Some "CAD Modeling") None None None 30 500
              "output/sam_opportunities_cad_modeling_20261104_093000.csv"
              (table_of (scrape (Some "k") "output" sample_now service_two
                           (Some "CAD Modeling") None None None 30 500)))
    as (tag & P & T & _).
  - vm_compute; left; reflexivity.
  - exists tag; split; [exact P|exact T].
Defined.

Lemma scrape_zero_cap_witness :
  scrape None "output" sample_now service_250 (Some "engineering") None None
    None 30 0
  = ([ Print (search_banner (Some "engineering") None None None 30);
       Print "No opportunities found." ], Ret []).
Proof.
  apply (scrape_zero_cap None "output" sample_now service_250
           (Some "engineering") None None None 30 0 sample_from eq_refl).
  lia.
Defined.

Lemma scrape_without_key_witness :
  scrape None "output" sample_now service_250 (Some "engineering") None None
    None 30 500
  = ([ Print (search_banner (Some "engineering") None None None 30) ],
     Raise (ValueError KEY_NOT_SET)).
Proof.
  apply (scrape_without_key None "output" sample_now service_250
           (Some "engineering") None None None 30 500 sample_from
           eq_refl eq_refl).
  lia.
Defined.

Lemma scrape_window_overflow_witness :
  exists msg,
    scrape (Some "k") "output" sample_now service_250 (Some "engineering")
      None None None 1000000 500
    = ([], Raise (OverflowError msg)).
Proof.
  apply (scrape_window_overflow (Some "k") "output" sample_now service_250
           (Some "engineering") None None None 1000000 500).
  - vm_compute; split; discriminate.
  - vm_compute; intros [H _]; apply H; reflexivity.
Defined.

Lemma scrape_goes_on_witness :
  exists p r rs o',
    service_250 (sample_request 0) = Body p
    /\ extract_records p = Ret (r :: rs)
    /\ offset_of (sample_request 100) = Some o'
    /\ o' < total_of p /\ o' < 500.
Proof.
  apply (scrape_goes_on (Some "k") "output" sample_now service_250
           (Some "engineering") None None None 30 500
           [] (sample_request 0) (sample_request 100) [sample_request 200]).
  vm_compute; reflexivity.
Defined.

Lemma combine_ids_unique_witness :
  NoDup (present_ids [abc_first; sample_record None (Some "b")]).
Proof.
  exact (proj1 (combine_ids_unique
                  [[abc_first]; [sample_record None (Some "b")];
                   [abc_second]]
                  [abc_first; sample_record None (Some "b")] eq_refl)).
Defined.

Lemma combine_fails_iff_nothing_found_witness :
  combine [[]; []] = Raise (ValueError "No objects to concatenate").
Proof.
  apply (proj1 (combine_fails_iff_nothing_found [[]; []])).
  repeat constructor.
Defined.

Lemma main_block_stops_at_failure_witness :
  result (main (Some "k") "output" sample_now service_down no_rendering)
  = Raise (RequestException "503 Server Error")
  /\ List.length
       (fetches (log (main (Some "k") "output" sample_now service_down
                        no_rendering))) = 1%nat.
Proof.
  destruct (main_block_stops_at_failure (Some "k") "output" sample_now
              service_down no_rendering [] (hd (mkSearch None None None None
                                                  0 0 "") searches)
              (tl searches) (RequestException "503 Server Error")
              (Forall_nil _) eq_refl) as (R & F & _).
  split; [exact R|].
  change (main (Some "k") "output" sample_now service_down no_rendering)
    with (main_block (Some "k") "output" sample_now service_down
            no_rendering
            ([] ++ hd (mkSearch None None None None 0 0 "") searches
                :: tl searches)).
  rewrite F; vm_compute; reflexivity.
Defined.

Lemma main_block_completes_witness :
  result (main (Some "k") "output" sample_now service_two no_rendering)
  = Ret tt.
Proof.
  assert (H1 : Forall2
                 (fun s df =>
                    result (scrape_profile (Some "k") "output" sample_now
                              service_two s) = Ret df)
                 searches
                 (map (fun s => table_of (scrape_profile (Some "k") "output"
                                            sample_now service_two s))
                      searches)).
  { unfold searches; cbn [map].
    repeat (apply Forall2_cons; [vm_compute; reflexivity|]).
    apply Forall2_nil. }
  assert (H2 : Exists (fun df : table => df <> [])
                 (map (fun s => table_of (scrape_profile (Some "k") "output"
                                            sample_now service_two s))
                      searches)).
  { apply Exists_cons_hd; vm_compute; discriminate. }
  exact (proj1 (main_block_completes (Some "k") "output" sample_now
                  service_two no_rendering searches _ H1 H2)).
Defined.
